(** * Debate simulator: the Groq call orchestrator [callGroq]

    Shallow embedding of the model table, the retry loop and the model
    fallback of [callGroq] in the Groq server ([src/unnamed/part_001]).

    - JavaScript values read by [callGroq] are [jsval]; a property read on
      an object literal falls back to [Object.prototype], whose members are
      functions (or, for [__proto__], the prototype object itself).
    - The endpoint is an oracle [env : nat -> fetch_outcome]: the answer to
      the [n]-th request of the whole logical call ([n] counted from 0).
    - The effects of one call are recorded in a [state]: the requests sent,
      in order, and the delays awaited, in milliseconds.
    - [callGroq] recurses on itself for a fallback model; the recursion is
      given fuel, and [complete] starts it with enough fuel for the longest
      possible chain of frames.
    - The debate endpoint is [debate_handler]: its rate limiter
      ([debateRateLimiter], a [Map] kept in insertion order), the
      validation of the body, and the rounds loop, which threads the state
      through its [callGroq] calls.  Requests are handled one at a time. *)

From Stdlib Require Import Ascii String List ZArith QArith Lia Bool.
From Stdlib Require Import DecimalString.
Import ListNotations.
Open Scope string_scope.
Open Scope list_scope.

(** ** JavaScript values *)

#[warnings="-register-all"]
Inductive jsval : Type :=
| JUndefined
| JString (s : string)
| JNumber (n : Z)
| JObject (fields : list (string * jsval))
| JProtoMember (name : string).

Fixpoint own_property (fs : list (string * jsval)) (k : string) : option jsval :=
  match fs with
  | [] => None
  | (k', v) :: fs' => if String.eqb k k' then Some v else own_property fs' k
  end.

(** The properties every object literal inherits from [Object.prototype]. *)
Definition object_prototype_members : list string :=
  ["constructor"; "__defineGetter__"; "__defineSetter__"; "hasOwnProperty";
   "__lookupGetter__"; "__lookupSetter__"; "isPrototypeOf";
   "propertyIsEnumerable"; "toString"; "valueOf"; "__proto__";
   "toLocaleString"].

Definition is_proto_member (k : string) : bool :=
  existsb (String.eqb k) object_prototype_members.

(** [o[k]]: an own property, else an inherited one, else [undefined].  The
    inherited members are functions or [Object.prototype]; none of them has
    a property that [callGroq] reads ([tokens]), so a read on them gives
    [undefined]. *)
Definition get (o : jsval) (k : string) : jsval :=
  match o with
  | JObject fs =>
      match own_property fs k with
      | Some v => v
      | None => if is_proto_member k then JProtoMember k else JUndefined
      end
  | _ => JUndefined
  end.

(** [o?.k] *)
Definition opt_get (o : jsval) (k : string) : jsval :=
  match o with
  | JUndefined => JUndefined
  | _ => get o k
  end.

(** [k in o] *)
Definition has_property (o : jsval) (k : string) : bool :=
  match o with
  | JObject fs =>
      match own_property fs k with
      | Some _ => true
      | None => is_proto_member k
      end
  | _ => false
  end.

Definition truthy (v : jsval) : bool :=
  match v with
  | JUndefined => false
  | JString s => negb (String.eqb s "")
  | JNumber n => negb (Z.eqb n 0)
  | JObject _ => true
  | JProtoMember _ => true
  end.

(** [a || b] *)
Definition js_or (a b : jsval) : jsval := if truthy a then a else b.

(** ** Configuration *)

Definition MAX_RETRIES : nat := 3.
Definition INITIAL_RETRY_DELAY_MS : Z := 1000.

Definition FREE_MODELS : jsval :=
  JObject [("llama33", JString "llama-3.3-70b-versatile");
           ("llama31", JString "llama-3.1-8b-instant");
           ("llama3", JString "llama3-70b-8192");
           ("mixtral", JString "mixtral-8x7b-32768");
           ("gemma2", JString "gemma2-9b-it");
           ("llama32", JString "llama-3.2-90b-text-preview")].

Definition MODEL_FALLBACK_ORDER : list string :=
  ["llama33"; "llama32"; "llama3"; "mixtral"; "llama31"; "gemma2"].

Definition RESPONSE_LENGTHS : jsval :=
  JObject [("short", JObject [("tokens", JNumber 150); ("description", JString "1-2 paragraphs")]);
           ("medium", JObject [("tokens", JNumber 300); ("description", JString "3-4 paragraphs")]);
           ("long", JObject [("tokens", JNumber 500); ("description", JString "5-6 paragraphs")])].

(** ** Requests, responses, errors *)

Record personality := { name : string; role : string; style : string }.

Record message := { msg_role : string; msg_content : string }.

(** The JSON body of the POST request. *)
Record request := {
  model : jsval;
  messages : list message;
  max_tokens : jsval;
  temperature : Q }.

(** A thrown JavaScript error: [error.name], [error.code], [error.message]. *)
Record js_error := { err_name : string; err_code : option string; err_message : string }.

(** What [fetchWithTimeout] yields for one request: a rejection with an
    error, or a response with its status, its text body (read by
    [response.text()] when the status is not ok) and the field
    [choices[0].message.content] of its JSON body ([None] when the path is
    absent). *)
Inductive fetch_outcome :=
| Rejected (e : js_error)
| Response (status : Z) (text : string) (content : option string).

(** Transport failures, and the errors Node's [fetch] rejects with for
    them: an abort by the timeout controller is an [AbortError]; the other
    network failures reject with [TypeError: fetch failed] (the system
    error code sits in [error.cause], not in [error.code]). *)
Inductive transport_failure :=
| Timeout | ConnectionRefused | ConnectionReset | ConnectTimeout | DnsFailure.

Definition fetch_rejection (f : transport_failure) : js_error :=
  match f with
  | Timeout => {| err_name := "AbortError"; err_code := None;
                  err_message := "This operation was aborted" |}
  | _ => {| err_name := "TypeError"; err_code := None; err_message := "fetch failed" |}
  end.

Definition response_ok (status : Z) : bool := (200 <=? status)%Z && (status <=? 299)%Z.

Definition new_error (msg : string) : js_error :=
  {| err_name := "Error"; err_code := None; err_message := msg |}.

Definition status_string (z : Z) : string := NilZero.string_of_int (Z.to_int z).

Definition groq_api_error (status : Z) (errorData : string) : js_error :=
  new_error ("Groq API error: " ++ status_string status ++ " - " ++ errorData)%string.

Definition missing_content_error : js_error :=
  new_error "Invalid response from Groq API: missing content".

Definition code_is (e : js_error) (c : string) : bool :=
  match err_code e with Some c' => String.eqb c' c | None => false end.

Definition is_network_error (e : js_error) : bool :=
  String.eqb (err_name e) "AbortError" ||
  String.eqb (err_name e) "TypeError" ||
  code_is e "UND_ERR_CONNECT_TIMEOUT" ||
  code_is e "ECONNREFUSED" ||
  code_is e "ETIMEDOUT".

(** ** Effects of one logical call *)

Record state := { sent : list request; waited : list Z }.

Definition initial_state : state := {| sent := []; waited := [] |}.

(** The settled value of an [async] call: a returned string, a thrown
    error, the [undefined] of a body that ends without [return], or the
    recursion fuel spent. *)
Inductive result :=
| Returned (s : string)
| Thrown (e : js_error)
| Undefined
| OutOfFuel.

(** [MODEL_FALLBACK_ORDER.find(m => !triedModelsSet.has(m))] *)
Definition next_fallback (tried : list string) : option string :=
  find (fun m => negb (existsb (String.eqb m) tried)) MODEL_FALLBACK_ORDER.

Definition build_request (modelId : jsval) (personality0 : personality)
    (prompt : string) (maxTokens : jsval) : request :=
  {| model := modelId;
     messages := [{| msg_role := "system"; msg_content := style personality0 |};
                  {| msg_role := "user"; msg_content := prompt |}];
     max_tokens := maxTokens;
     temperature := 7 # 10 |}.

Definition record_request (req : request) (st : state) : state :=
  {| sent := (sent st ++ [req])%list; waited := waited st |}.

(** [const modelId = FREE_MODELS[model] || FREE_MODELS.llama33] *)
Definition resolve (alias : string) : jsval :=
  js_or (get FREE_MODELS alias) (get FREE_MODELS "llama33").

(** [const maxTokens = RESPONSE_LENGTHS[length]?.tokens || 300] *)
Definition max_tokens_for (length : string) : jsval :=
  js_or (opt_get (get RESPONSE_LENGTHS length) "tokens") (JNumber 300).

Section Orchestrator.

(** The answer of the endpoint to the [n]-th request. *)
Variable env : nat -> fetch_outcome.

Definition fetch (req : request) (st : state) : fetch_outcome * state :=
  (env (List.length (sent st)), record_request req st).

Definition delay (ms : Z) (st : state) : state :=
  {| sent := sent st; waited := (waited st ++ [ms])%list |}.

(** The [try] block of one iteration of the [while] loop of [callGroq]:
    the request, then the classification of its outcome.  It yields the
    settled value of the block, [triedModelsSet] after it, and the state.
    [self] is the recursive call
    [callGroq(prompt, personality, length, fallbackModel, tried)]. *)
Definition attempt_try
    (self : string -> list string -> state -> result * state)
    (prompt : string) (personality0 : personality) (model0 : string)
    (modelId maxTokens : jsval) (tried : list string) (st : state)
    : result * list string * state :=
  let '(response, st1) :=
    fetch (build_request modelId personality0 prompt maxTokens) st in
  match response with
  | Rejected e => (Thrown e, tried, st1)
  | Response status errorData content =>
      if negb (response_ok status) then
        let is404 := (status =? 404)%Z in
        let is429 := (status =? 429)%Z in
        let is503 := (status =? 503)%Z in
        if (is404 || is429 || is503) && has_property FREE_MODELS model0
           && negb (existsb (String.eqb model0) tried) then
          let tried' := (tried ++ [model0])%list in
          match next_fallback tried' with
          | Some fallbackModel =>
              let '(r, st2) := self fallbackModel tried' st1 in (r, tried', st2)
          | None => (Thrown (groq_api_error status errorData), tried', st1)
          end
        else (Thrown (groq_api_error status errorData), tried, st1)
      else
        match content with
        | Some c =>
            if truthy (JString c) then (Returned c, tried, st1)
            else (Thrown missing_content_error, tried, st1)
        | None => (Thrown missing_content_error, tried, st1)
        end
  end.

(** The [while] loop of [callGroq], for the iterations left ([remaining];
    [remaining + attempt = MAX_RETRIES + 1], so the loop test
    [attempt <= MAX_RETRIES] is [remaining <> 0]).  [tried] is
    [triedModelsSet], which the iterations share.  The [catch] block retries
    a network error after a delay unless the attempt was the last one, and
    rethrows anything else. *)
Fixpoint attempt_loop
    (self : string -> list string -> state -> result * state)
    (prompt : string) (personality0 : personality) (model0 : string)
    (modelId maxTokens : jsval)
    (remaining attempt : nat) (tried : list string) (st : state) : result * state :=
  match remaining with
  | O => (Undefined, st)
  | S remaining' =>
      let '(r, tried1, st2) :=
        attempt_try self prompt personality0 model0 modelId maxTokens tried st in
      match r with
      | Thrown error =>
          let isLastAttempt := Nat.eqb attempt MAX_RETRIES in
          if is_network_error error && negb isLastAttempt then
            let delayMs := (INITIAL_RETRY_DELAY_MS * 2 ^ Z.of_nat attempt)%Z in
            attempt_loop self prompt personality0 model0 modelId maxTokens
              remaining' (S attempt) tried1 (delay delayMs st2)
          else (Thrown error, st2)
      | _ => (r, st2)
      end
  end.

Fixpoint callGroq (fuel : nat) (prompt : string) (personality0 : personality)
    (length : string) (model0 : string) (triedModels : list string)
    (st : state) : result * state :=
  match fuel with
  | O => (OutOfFuel, st)
  | S fuel' =>
      let modelId := resolve model0 in
      let maxTokens := max_tokens_for length in
      attempt_loop
        (fun fallbackModel tried st' =>
           callGroq fuel' prompt personality0 length fallbackModel tried st')
        prompt personality0 model0 modelId maxTokens
        (S MAX_RETRIES) 0 triedModels st
  end.

(** One logical call, with an empty [triedModels].  A chain of frames is at
    most 7 long (a start alias outside the fallback order, then the 6
    models of the order); 8 is enough fuel ([complete_not_out_of_fuel]). *)
Definition complete (prompt : string) (personality0 : personality)
    (length : string) (startAlias : string) : result * state :=
  callGroq 8 prompt personality0 length startAlias [] initial_state.

End Orchestrator.

(** ** Auxiliary definitions for the proofs *)

(** [is404 || is429 || is503] *)
Definition fallback_status (status : Z) : bool :=
  (status =? 404)%Z || (status =? 429)%Z || (status =? 503)%Z.

(** A persona for concrete runs. *)
Definition pro : personality :=
  {| name := "Pro Agent"; role := "advocate"; style := "You argue in favor." |}.

(** An endpoint that answers the [n]-th request with the [n]-th outcome of
    [outs] (and with a timeout past its end). *)
Definition env_list (outs : list fetch_outcome) (n : nat) : fetch_outcome :=
  nth n outs (Rejected (fetch_rejection Timeout)).

Definition llama33_id : jsval := JString "llama-3.3-70b-versatile".
Definition llama32_id : jsval := JString "llama-3.2-90b-text-preview".
Definition llama3_id : jsval := JString "llama3-70b-8192".

(** The aliases of the fallback order not yet in [tried]. *)
Definition untried_count (tried : list string) : nat :=
  List.length (filter (fun a => negb (existsb (String.eqb a) tried)) MODEL_FALLBACK_ORDER).

(** A run started with at most [k] requests sent either stays within [k]
    requests or ends by throwing the missing-content error right after the
    [k]-th request (counted from 0). *)
Definition stops_at_malformed (k : nat) (run : state -> result * state) : Prop :=
  forall st, (List.length (sent st) <= k)%nat ->
    (List.length (sent (snd (run st))) <= k)%nat \/
    (fst (run st) = Thrown missing_content_error /\
     List.length (sent (snd (run st))) = S k).

(** The requests built by the frames of one call. *)
Definition built_here (prompt : string) (personality0 : personality)
    (length : string) (r : request) : Prop :=
  exists modelId, r = build_request modelId personality0 prompt (max_tokens_for length).

Definition keeps_built (prompt : string) (personality0 : personality)
    (length : string) (run : state -> result * state) : Prop :=
  forall st, Forall (built_here prompt personality0 length) (sent st) ->
    Forall (built_here prompt personality0 length) (sent (snd (run st))).

(** ** The debate endpoint ([app.post('/api/debate', ...)]) *)

Definition RATE_LIMIT_WINDOW_MS : Z := 60000.
Definition MAX_DEBATES_PER_WINDOW : Z := 20.

(** An entry of [debateRateLimiter]. *)
Record client_data := { count : Z; timestamp : Z }.

(** The [Map] [debateRateLimiter], in insertion order. *)
Definition rate_map := list (string * client_data).

Fixpoint map_get (m : rate_map) (ip : string) : option client_data :=
  match m with
  | [] => None
  | (ip', d) :: m' => if String.eqb ip ip' then Some d else map_get m' ip
  end.

(** [Map.prototype.set]: an existing key keeps its place, a new key goes
    last. *)
Fixpoint map_set (m : rate_map) (ip : string) (d : client_data) : rate_map :=
  match m with
  | [] => [(ip, d)]
  | (ip', d') :: m' =>
      if String.eqb ip ip' then (ip', d) :: m' else (ip', d') :: map_set m' ip d
  end.

(** The clean-up loop: [for (const [ip, data] of debateRateLimiter.entries())]
    deletes the entries older than the window. *)
Definition clean_up (now : Z) (m : rate_map) : rate_map :=
  filter (fun '(_, data) => negb (now - timestamp data >? RATE_LIMIT_WINDOW_MS)%Z) m.

(** The rate-limiting prefix of the handler: whether the request goes on
    ([false] for the 429 reply), and the map after it. *)
Definition rate_limit (m : rate_map) (clientIp : string) (now : Z) : bool * rate_map :=
  let m1 := clean_up now m in
  let clientData :=
    match map_get m1 clientIp with
    | Some d => d
    | None => {| count := 0; timestamp := now |}
    end in
  if (count clientData >=? MAX_DEBATES_PER_WINDOW)%Z
     && (now - timestamp clientData <? RATE_LIMIT_WINDOW_MS)%Z then (false, m1)
  else
    let clientData' :=
      if (now - timestamp clientData >? RATE_LIMIT_WINDOW_MS)%Z
      then {| count := 1; timestamp := now |}
      else {| count := count clientData + 1; timestamp := timestamp clientData |} in
    (true, map_set m1 clientIp clientData').

(** JavaScript's [String.prototype.trim] on Latin-1 code units: it strips
    WhiteSpace and LineTerminator characters (TAB, LF, VT, FF, CR, space
    and no-break space). *)
Definition is_js_space (c : ascii) : bool :=
  let n := nat_of_ascii c in
  (n =? 9)%nat || (n =? 10)%nat || (n =? 11)%nat || (n =? 12)%nat ||
  (n =? 13)%nat || (n =? 32)%nat || (n =? 160)%nat.

Fixpoint drop_spaces (l : list ascii) : list ascii :=
  match l with
  | [] => []
  | c :: l' => if is_js_space c then drop_spaces l' else l
  end.

Definition trim (s : string) : string :=
  string_of_list_ascii (rev (drop_spaces (rev (drop_spaces (list_ascii_of_string s))))).

Definition nl : string := String (ascii_of_nat 10) EmptyString.
Definition dq : string := String (ascii_of_nat 34) EmptyString.

Definition AGENT_PRO : personality :=
  {| name := "Pro Agent"; role := "advocate";
     style := "You are a skilled debater arguing in FAVOR of the topic. Be persuasive, use logical arguments, provide examples, and maintain a professional but passionate tone. Always support the affirmative position." |}.

Definition AGENT_CON : personality :=
  {| name := "Con Agent"; role := "opponent";
     style := "You are a skilled debater arguing AGAINST the topic. Be critical, challenge assumptions, present counterarguments, and maintain a professional but firm tone. Always support the negative position." |}.

(** The fields of [req.body] the handler reads, for a body whose [topic],
    [responseLength] and [model] are strings or absent and whose [rounds]
    is an integer or absent. *)
Record debate_body := {
  topic : option string;
  rounds : option Z;
  responseLength : option string;
  body_model : option string }.

(** [{ round: i, pro: proResponse, con: conResponse }] *)
Record debate_round := { round : Z; round_pro : jsval; round_con : jsval }.

(** The value a settled [callGroq] gives to [await] when it did not throw,
    and its rendering in a template literal ([undefined] for a body that
    ended without [return]). *)
Definition response_value (r : result) : jsval :=
  match r with Returned s => JString s | _ => JUndefined end.

Definition response_text (r : result) : string :=
  match r with Returned s => s | _ => "undefined" end.

Inductive rounds_outcome :=
| RoundsDone (debateRounds : list debate_round)
| RoundsFailed (e : js_error)
| RoundsOutOfFuel.

(** The replies of the handler: 429, 400 and 500 with their [error] (and
    [details]) fields, the 200 debate, or the recursion fuel spent. *)
Inductive reply :=
| TooManyRequests (error : string)
| BadRequest (error : string)
| ServerError (error : string) (details : option string)
| DebateResult (topic : string) (debateRounds : list debate_round) (totalRounds : Z)
    (responseLength : string) (model : option string)
| HandlerOutOfFuel.

Section Debate.

Variable env : nat -> fetch_outcome.

(** [for (let i = 1; i <= rounds; i++)]: the loop test first; [fuel]
    bounds the iterations.  [model0] is the [model] parameter of
    [callGroq] after its default ['llama33']. *)
Fixpoint generate_rounds (fuel : nat) (topic0 : string) (rounds0 : Z)
    (responseLength0 model0 : string) (i : Z) (context : string)
    (debateRounds : list debate_round) (st : state) : rounds_outcome * state :=
  if (i <=? rounds0)%Z then
    match fuel with
    | O => (RoundsOutOfFuel, st)
    | S fuel' =>
        let proPrompt := (context ++ "Round " ++ status_string i
                          ++ ": Present your argument in favor of: " ++ dq ++ topic0 ++ dq)%string in
        match callGroq env 8 proPrompt AGENT_PRO responseLength0 model0 [] st with
        | (Thrown e, st1) => (RoundsFailed e, st1)
        | (OutOfFuel, st1) => (RoundsOutOfFuel, st1)
        | (proResponse, st1) =>
            let conPrompt := (context ++ "Round " ++ status_string i
                              ++ ": The Pro side just argued:" ++ nl ++ dq
                              ++ response_text proResponse ++ dq ++ nl ++ nl
                              ++ "Now present your counter-argument against: "
                              ++ dq ++ topic0 ++ dq)%string in
            match callGroq env 8 conPrompt AGENT_CON responseLength0 model0 [] st1 with
            | (Thrown e, st2) => (RoundsFailed e, st2)
            | (OutOfFuel, st2) => (RoundsOutOfFuel, st2)
            | (conResponse, st2) =>
                generate_rounds fuel' topic0 rounds0 responseLength0 model0 (i + 1)
                  (context ++ "Round " ++ status_string i ++ ":" ++ nl
                   ++ "Pro: " ++ response_text proResponse ++ nl
                   ++ "Con: " ++ response_text conResponse ++ nl ++ nl)%string
                  (debateRounds ++ [{| round := i; round_pro := response_value proResponse;
                                       round_con := response_value conResponse |}])
                  st2
            end
        end
    end
  else (RoundsDone debateRounds, st).

(** The handler, from the rate limiting to the reply. *)
Definition debate_handler (GROQ_API_KEY : option string) (limiter : rate_map)
    (clientIp : string) (now : Z) (body : debate_body) (st : state)
    : reply * rate_map * state :=
  let '(admitted, limiter1) := rate_limit limiter clientIp now in
  if negb admitted then
    (TooManyRequests "Too many requests. Please wait a minute before starting another debate.",
     limiter1, st)
  else
    let bad_topic := (BadRequest "Topic is required", limiter1, st) in
    let bad_rounds := (BadRequest "Rounds must be between 1 and 10", limiter1, st) in
    let bad_length := (BadRequest "Invalid response length", limiter1, st) in
    match topic body with
    | None => bad_topic
    | Some topic0 =>
      if String.eqb topic0 "" || String.eqb (trim topic0) "" then bad_topic else
      match rounds body with
      | None => bad_rounds
      | Some rounds0 =>
        if (rounds0 =? 0)%Z || (rounds0 <? 1)%Z || (rounds0 >? 10)%Z then bad_rounds else
        match responseLength body with
        | None => bad_length
        | Some len =>
          if String.eqb len "" || negb (truthy (get RESPONSE_LENGTHS len)) then bad_length else
          if match GROQ_API_KEY with None => true | Some k => String.eqb k "" end then
            (ServerError "Groq API key not configured. Please set GROQ_API_KEY in .env file." None,
             limiter1, st)
          else
            let model0 := match body_model body with Some m => m | None => "llama33" end in
            let context := ("Debate Topic: " ++ topic0 ++ nl ++ nl)%string in
            match generate_rounds (S (Z.to_nat rounds0)) topic0 rounds0 len model0 1 context [] st with
            | (RoundsDone rs, st') =>
                (DebateResult topic0 rs rounds0 len (body_model body), limiter1, st')
            | (RoundsFailed e, st') =>
                (ServerError "Failed to generate debate" (Some (err_message e)), limiter1, st')
            | (RoundsOutOfFuel, st') => (HandlerOutOfFuel, limiter1, st')
            end
        end
      end
    end.

End Debate.

(** Successive requests of one client, at the times [times]: whether each
    one went on, and the map after the last. *)
Fixpoint rate_limit_run (m : rate_map) (clientIp : string) (times : list Z)
    : list bool * rate_map :=
  match times with
  | [] => ([], m)
  | now :: times' =>
      let '(b, m1) := rate_limit m clientIp now in
      let '(bs, m2) := rate_limit_run m1 clientIp times' in
      (b :: bs, m2)
  end.

(** A run that only appends requests satisfying [P] to those sent. *)
Definition appends_with {A} (P : request -> Prop) (run : state -> A * state) : Prop :=
  forall st, exists new, sent (snd (run st)) = (sent st ++ new)%list /\ Forall P new.

(** A request of a debate on [topic0]: the pro or con persona, a user
    prompt that starts with the debate's context header, and the token
    budget of the length tier. *)
Definition debate_request (topic0 len : string) (r : request) : Prop :=
  exists modelId personality0 rest,
    (personality0 = AGENT_PRO \/ personality0 = AGENT_CON) /\
    r = build_request modelId personality0
          ("Debate Topic: " ++ topic0 ++ nl ++ nl ++ rest)%string (max_tokens_for len).

(** Both sides of a round hold a string. *)
Definition round_strings (x : debate_round) : Prop :=
  exists p c, round_pro x = JString p /\ round_con x = JString c.

(** ** One iteration of the loop, case by case *)

Section Steps.

Variable env : nat -> fetch_outcome.
Variable self : string -> list string -> state -> result * state.
Variables (prompt : string) (personality0 : personality) (model0 : string).
Variables (modelId maxTokens : jsval).

Local Abbreviation loop := (attempt_loop env self prompt personality0 model0 modelId maxTokens).
Local Abbreviation req := (build_request modelId personality0 prompt maxTokens).

Lemma loop_success rem att tried st s t c :
  env (List.length (sent st)) = Response s t (Some c) ->
  response_ok s = true -> c <> "" ->
  loop (S rem) att tried st = (Returned c, record_request req st).
Proof.
  intros He Hok Hc. cbn [attempt_loop]. unfold attempt_try, fetch. rewrite He.
  cbn [negb]. rewrite Hok. unfold truthy.
  destruct (String.eqb_spec c "") as [E|_]; [contradiction|]. reflexivity.
Qed.

Lemma loop_malformed rem att tried st s t c :
  env (List.length (sent st)) = Response s t c ->
  response_ok s = true -> (forall x, c = Some x -> x = "") ->
  loop (S rem) att tried st = (Thrown missing_content_error, record_request req st).
Proof.
  intros He Hok Hc. cbn [attempt_loop]. unfold attempt_try, fetch. rewrite He.
  cbn [negb]. rewrite Hok.
  destruct c as [x|]; [rewrite (Hc x eq_refl)|]; reflexivity.
Qed.

Lemma loop_rejected_terminal rem att tried st s t c :
  env (List.length (sent st)) = Response s t c ->
  response_ok s = false ->
  fallback_status s && has_property FREE_MODELS model0
    && negb (existsb (String.eqb model0) tried) = false ->
  loop (S rem) att tried st = (Thrown (groq_api_error s t), record_request req st).
Proof.
  intros He Hok Hf. cbn [attempt_loop]. unfold attempt_try, fetch. rewrite He.
  rewrite Hok. cbn [negb]. unfold fallback_status in Hf. rewrite Hf. reflexivity.
Qed.

Lemma loop_rejected_exhausted rem att tried st s t c :
  env (List.length (sent st)) = Response s t c ->
  response_ok s = false ->
  fallback_status s && has_property FREE_MODELS model0
    && negb (existsb (String.eqb model0) tried) = true ->
  next_fallback (tried ++ [model0]) = None ->
  loop (S rem) att tried st = (Thrown (groq_api_error s t), record_request req st).
Proof.
  intros He Hok Hf Hn. cbn [attempt_loop]. unfold attempt_try, fetch. rewrite He.
  rewrite Hok. cbn [negb]. unfold fallback_status in Hf. rewrite Hf, Hn. reflexivity.
Qed.

Lemma loop_fallback rem att tried st s t c fb :
  env (List.length (sent st)) = Response s t c ->
  response_ok s = false ->
  fallback_status s && has_property FREE_MODELS model0
    && negb (existsb (String.eqb model0) tried) = true ->
  next_fallback (tried ++ [model0]) = Some fb ->
  loop (S rem) att tried st =
    match self fb (tried ++ [model0]) (record_request req st) with
    | (Thrown e, st2) =>
        if is_network_error e && negb (Nat.eqb att MAX_RETRIES) then
          loop rem (S att) (tried ++ [model0])
            (delay (INITIAL_RETRY_DELAY_MS * 2 ^ Z.of_nat att) st2)
        else (Thrown e, st2)
    | (r, st2) => (r, st2)
    end.
Proof.
  intros He Hok Hf Hn. cbn [attempt_loop]. unfold attempt_try, fetch. rewrite He.
  rewrite Hok. cbn [negb]. unfold fallback_status in Hf. rewrite Hf, Hn.
  destruct (self fb (tried ++ [model0]) (record_request req st)) as [[] st2];
    reflexivity.
Qed.

Lemma loop_transport rem att tried st e :
  env (List.length (sent st)) = Rejected e ->
  loop (S rem) att tried st =
    if is_network_error e && negb (Nat.eqb att MAX_RETRIES) then
      loop rem (S att) tried
        (delay (INITIAL_RETRY_DELAY_MS * 2 ^ Z.of_nat att) (record_request req st))
    else (Thrown e, record_request req st).
Proof.
  intros He. cbn [attempt_loop]. unfold attempt_try, fetch. rewrite He. reflexivity.
Qed.

End Steps.

Lemma callGroq_S env fuel prompt personality0 length model0 tried st :
  callGroq env (S fuel) prompt personality0 length model0 tried st =
  attempt_loop env (fun fb tried' st' => callGroq env fuel prompt personality0 length fb tried' st')
    prompt personality0 model0 (resolve model0) (max_tokens_for length)
    4 0 tried st.
Proof. reflexivity. Qed.

(** ** Small facts *)

Lemma find_first {A} (p : A -> bool) (l : list A) (m : A) :
  find p l = Some m <->
  exists pre post, l = pre ++ m :: post /\ Forall (fun a => p a = false) pre /\ p m = true.
Proof.
  induction l as [|a l IH]; cbn.
  - split; [discriminate|]. intros (pre & post & E & _). destruct pre; discriminate.
  - destruct (p a) eqn:Ha.
    + split.
      * intros [= <-]. exists [], l. auto.
      * intros (pre & post & E & F & Hm). destruct pre as [|b pre]; cbn in E.
        -- now injection E as ->.
        -- injection E as -> _. inversion F; congruence.
    + rewrite IH. split.
      * intros (pre & post & -> & F & Hm). exists (a :: pre), post. auto.
      * intros (pre & post & E & F & Hm). destruct pre as [|b pre]; cbn in E.
        -- injection E as -> _. congruence.
        -- injection E as -> ->. inversion F; subst. eauto.
Qed.

Lemma find_none {A} (p : A -> bool) (l : list A) :
  find p l = None <-> Forall (fun a => p a = false) l.
Proof.
  induction l as [|a l IH]; cbn.
  - split; auto.
  - destruct (p a) eqn:Ha.
    + split; [discriminate|]. intros F; inversion F; congruence.
    + rewrite IH. split; [auto|]. intros F; now inversion F.
Qed.

Lemma untried_false (tried : list string) (a : string) :
  negb (existsb (String.eqb a) tried) = false <-> In a tried.
Proof.
  rewrite negb_false_iff, existsb_exists. split.
  - intros (x & Hx & E). apply String.eqb_eq in E. now subst.
  - intros H. exists a. split; [exact H | apply String.eqb_refl].
Qed.

Lemma untried_true (tried : list string) (a : string) :
  negb (existsb (String.eqb a) tried) = true <-> ~ In a tried.
Proof.
  rewrite <- untried_false. destruct (negb _); split; congruence.
Qed.

(** ** Model registry *)

(** C7: the lookup [FREE_MODELS[model] || FREE_MODELS.llama33] does not
    fall back to the default identifier for an unknown alias that names a
    member of [Object.prototype]: for ["toString"] it yields the inherited
    function, not llama33's identifier. *)
Theorem resolve_inherited_member :
  resolve "toString" = JProtoMember "toString" /\
  resolve "toString" <> llama33_id.
Proof. split; [reflexivity | discriminate]. Qed.

(** C8: the fallback candidate is the first alias of the fallback order
    that is not in the tried set, and there is none exactly when every
    alias of the order has been tried. *)
Theorem next_fallback_first_untried (tried : list string) :
  (forall m, next_fallback tried = Some m <->
     exists pre post, MODEL_FALLBACK_ORDER = pre ++ m :: post /\
       Forall (fun a => In a tried) pre /\ ~ In m tried) /\
  (next_fallback tried = None <-> Forall (fun a => In a tried) MODEL_FALLBACK_ORDER).
Proof.
  unfold next_fallback. split.
  - intros m. rewrite find_first. split.
    + intros (pre & post & E & F & Hm). exists pre, post.
      split; [exact E|]. split.
      * eapply Forall_impl; [|exact F]. intros a. apply untried_false.
      * now apply untried_true.
    + intros (pre & post & E & F & Hm). exists pre, post.
      split; [exact E|]. split.
      * eapply Forall_impl; [|exact F]. intros a. apply untried_false.
      * now apply untried_true.
  - rewrite find_none. split; intros F; (eapply Forall_impl; [|exact F]);
      intros a; apply untried_false.
Qed.


Lemma network_fetch_rejection f : is_network_error (fetch_rejection f) = true.
Proof. destruct f; reflexivity. Qed.

Lemma network_groq_api_error s t : is_network_error (groq_api_error s t) = false.
Proof. reflexivity. Qed.

Lemma fallback_status_not_ok s : fallback_status s = true -> response_ok s = false.
Proof.
  unfold fallback_status, response_ok.
  intros H; repeat (apply orb_true_iff in H; destruct H as [H|H]);
    apply Z.eqb_eq in H; subst; reflexivity.
Qed.

(** One step of a run: unfold a frame, or settle one iteration of its loop
    from the endpoint's answer; [side] closes the premises that evaluation
    does not. *)
Ltac run_step_with side :=
  first
    [ rewrite callGroq_S
    | erewrite loop_success by (reflexivity || assumption || side)
    | erewrite loop_fallback by (reflexivity || side)
    | erewrite loop_rejected_exhausted by (reflexivity || side)
    | erewrite loop_rejected_terminal by (reflexivity || side)
    | erewrite loop_malformed by (reflexivity || (intros ? [=]) || side)
    | erewrite loop_transport by reflexivity;
      rewrite ?network_fetch_rejection; cbn [andb negb Nat.eqb MAX_RETRIES] ];
  rewrite ?network_groq_api_error; cbn [andb negb Nat.eqb MAX_RETRIES].

Ltac run_step := run_step_with fail.

(** ** Fallback on rejections *)

(** C2: from llama33, two 503 rejections (llama33, llama32) and a success
    on llama3 give llama3's text after exactly 3 requests, for llama33,
    llama32 and llama3 in this order. *)
Theorem complete_503_503_then_llama3 (prompt : string) (p : personality)
    (len t1 t2 t3 txt : string) (c1 c2 : option string) :
  txt <> "" ->
  let env := env_list [Response 503 t1 c1; Response 503 t2 c2; Response 200 t3 (Some txt)] in
  fst (complete env prompt p len "llama33") = Returned txt /\
  map model (sent (snd (complete env prompt p len "llama33"))) =
    [llama33_id; llama32_id; llama3_id].
Proof.
  intros Htxt env. unfold complete.
  do 6 run_step. cbn [fst snd]. split; reflexivity.
Qed.

Lemma complete_503_503_then_llama3_witness :
  "ok" <> "" /\
  (let env := env_list [Response 503 "" None; Response 503 "" None; Response 200 "" (Some "ok")] in
   fst (complete env "p" pro "short" "llama33") = Returned "ok" /\
   map model (sent (snd (complete env "p" pro "short" "llama33"))) =
     [llama33_id; llama32_id; llama3_id]).
Proof.
  split; [discriminate|].
  apply (complete_503_503_then_llama3 "p" pro "short" "" "" "" "ok" None None).
  discriminate.
Defined.

(** C1: llama33 is rejected with 503 and joins the tried set; the fallback
    llama32 fails four times at the transport level and its frame throws the
    [TypeError]; that error reaches the [catch] of the llama33 frame, which
    retries: the sixth request goes to llama33 again. *)
Theorem complete_requests_tried_alias_again :
  let env := env_list
    [Response 503 "" None;
     Rejected (fetch_rejection ConnectionRefused); Rejected (fetch_rejection ConnectionRefused);
     Rejected (fetch_rejection ConnectionRefused); Rejected (fetch_rejection ConnectionRefused);
     Response 503 "" None] in
  fst (complete env "p" pro "short" "llama33") = Thrown (groq_api_error 503 "") /\
  map model (sent (snd (complete env "p" pro "short" "llama33"))) =
    [llama33_id; llama32_id; llama32_id; llama32_id; llama32_id; llama33_id].
Proof. split; reflexivity. Qed.

(** C4: four timeouts on the fallback llama32 do not end the call with a
    transport failure: the [AbortError] is caught by the llama33 frame,
    which retries llama33, and the call returns that request's text. *)
Theorem complete_transport_exhaustion_switches_model :
  let env := env_list
    [Response 429 "" None;
     Rejected (fetch_rejection Timeout); Rejected (fetch_rejection Timeout);
     Rejected (fetch_rejection Timeout); Rejected (fetch_rejection Timeout);
     Response 200 "" (Some "ok")] in
  fst (complete env "p" pro "short" "llama33") = Returned "ok" /\
  map model (sent (snd (complete env "p" pro "short" "llama33"))) =
    [llama33_id; llama32_id; llama32_id; llama32_id; llama32_id; llama33_id].
Proof. split; reflexivity. Qed.

(** C10: the alias ["toString"] is not a key of [FREE_MODELS] but passes
    the test [model in FREE_MODELS] through [Object.prototype]: a 404 on
    its request falls back to llama33, whose answer is returned. *)
Theorem complete_inherited_alias_falls_back :
  let env := env_list [Response 404 "" None; Response 200 "" (Some "ok")] in
  fst (complete env "p" pro "short" "toString") = Returned "ok" /\
  map model (sent (snd (complete env "p" pro "short" "toString"))) =
    [JProtoMember "toString"; llama33_id].
Proof. split; reflexivity. Qed.

(** ** Retries on transport failures *)

(** C3: at most three transport failures on the start model, then a
    success: the call returns the text; before the [k]-th retry it waits
    [1000 * 2^(k-1)] ms, so at most 1000 + 2000 + 4000 ms in all; every
    request goes to the start model. *)
Theorem complete_transport_retries_then_success (prompt : string) (p : personality)
    (len start t txt : string) (fails : list transport_failure) :
  (List.length fails <= 3)%nat -> txt <> "" ->
  let env := env_list (map (fun f => Rejected (fetch_rejection f)) fails
                       ++ [Response 200 t (Some txt)]) in
  let '(r, st) := complete env prompt p len start in
  r = Returned txt /\
  waited st = map (fun i => INITIAL_RETRY_DELAY_MS * 2 ^ Z.of_nat i)%Z
                  (seq 0 (List.length fails)) /\
  (fold_right Z.add 0 (waited st) <= 7000)%Z /\
  map model (sent st) = repeat (resolve start) (S (List.length fails)).
Proof.
  intros Hlen Htxt env. unfold complete.
  destruct fails as [|f1 [|f2 [|f3 [|f4 fs]]]]; cbn [List.length] in Hlen; [..| lia];
    repeat run_step; cbn -[resolve]; repeat split; (reflexivity || lia).
Qed.

Lemma complete_transport_retries_then_success_witness :
  (List.length [Timeout; ConnectionReset] <= 3)%nat /\ "ok" <> "" /\
  (let env := env_list (map (fun f => Rejected (fetch_rejection f)) [Timeout; ConnectionReset]
                        ++ [Response 200 "" (Some "ok")]) in
   let '(r, st) := complete env "p" pro "short" "llama33" in
   r = Returned "ok" /\
   waited st = map (fun i => INITIAL_RETRY_DELAY_MS * 2 ^ Z.of_nat i)%Z
                   (seq 0 (List.length [Timeout; ConnectionReset])) /\
   (fold_right Z.add 0 (waited st) <= 7000)%Z /\
   map model (sent st) = repeat (resolve "llama33") (S (List.length [Timeout; ConnectionReset]))).
Proof.
  split; [cbn; lia|]. split; [discriminate|].
  apply (complete_transport_retries_then_success "p" pro "short" "llama33" "" "ok"
           [Timeout; ConnectionReset]).
  - cbn; lia.
  - discriminate.
Defined.

(** ** Exhausting the fallback order *)

(** C6, as the code has it: from any alias of the fallback order, when
    every request is rejected with 404, 429 or 503, the call sends one
    request to each of the 6 models (the start alias, then the others in
    the fallback order) and throws the error of the last rejection,
    [Groq API error: <status> - <body>]. *)
Theorem complete_all_rejected (prompt : string) (p : personality) (len start : string)
    (sts : nat -> Z) (txs : nat -> string) (cts : nat -> option string) :
  In start MODEL_FALLBACK_ORDER ->
  (forall i, fallback_status (sts i) = true) ->
  let env := fun i => Response (sts i) (txs i) (cts i) in
  let '(r, st) := complete env prompt p len start in
  r = Thrown (groq_api_error (sts 5%nat) (txs 5%nat)) /\
  map model (sent st) =
    map resolve (start :: filter (fun m => negb (String.eqb m start)) MODEL_FALLBACK_ORDER).
Proof.
  intros Hin Hfb env.
  assert (Hok : forall i, response_ok (sts i) = false)
    by (intros i; apply fallback_status_not_ok, Hfb).
  unfold complete.
  repeat destruct Hin as [<-|Hin]; [..| destruct Hin];
    repeat run_step_with ltac:(first [apply Hok | rewrite Hfb; reflexivity]);
    cbn -[resolve]; split; reflexivity.
Qed.

Lemma complete_all_rejected_witness :
  In "llama33" MODEL_FALLBACK_ORDER /\
  (forall i : nat, fallback_status ((fun _ => 503%Z) i) = true) /\
  (let env := fun i : nat => Response ((fun _ => 503%Z) i) ((fun _ => "") i) ((fun _ => None) i) in
   let '(r, st) := complete env "p" pro "short" "llama33" in
   r = Thrown (groq_api_error ((fun _ => 503%Z) 5%nat) ((fun _ => "") 5%nat)) /\
   map model (sent st) =
     map resolve ("llama33" :: filter (fun m => negb (String.eqb m "llama33")) MODEL_FALLBACK_ORDER)).
Proof.
  split; [left; reflexivity|]. split; [intros; reflexivity|].
  apply (complete_all_rejected "p" pro "short" "llama33"
           (fun _ => 503%Z) (fun _ => "") (fun _ => None)).
  - left; reflexivity.
  - intros; reflexivity.
Defined.

(** C6 fails as stated: when the six models of the fallback order are all
    rejected with 503 and an empty body, the error thrown is the plain
    [Error] built from the status and the body alone; its message does not
    mention gemma2, the last model requested. *)
Lemma complete_all_rejected_message_no_model :
  let env := fun _ : nat => Response 503 "" None in
  fst (complete env "p" pro "short" "llama33") = Thrown (groq_api_error 503 "") /\
  last (map model (sent (snd (complete env "p" pro "short" "llama33")))) JUndefined =
    JString "gemma2-9b-it" /\
  groq_api_error 503 "" =
    {| err_name := "Error"; err_code := None; err_message := "Groq API error: 503 - " |} /\
  index 0 "gemma2" "Groq API error: 503 - " = None.
Proof. repeat split; reflexivity. Qed.

(** ** Malformed responses *)

Section Malformed.

Variable env : nat -> fetch_outcome.
Variable k : nat.
Variables (s0 : Z) (t0 : string) (c0 : option string).
Hypothesis Hk : env k = Response s0 t0 c0.
Hypothesis Hok : response_ok s0 = true.
Hypothesis Hc : forall x, c0 = Some x -> x = "".

Ltac len_tac := cbn; rewrite ?length_app; cbn [List.length]; lia.

Lemma attempt_loop_stops self prompt personality0 model0 modelId maxTokens :
  (forall fb tried, stops_at_malformed k (self fb tried)) ->
  forall rem att tried,
    stops_at_malformed k
      (attempt_loop env self prompt personality0 model0 modelId maxTokens rem att tried).
Proof.
  intros Hself rem. induction rem as [|rem IH]; intros att tried st Hle.
  - left. exact Hle.
  - destruct (Nat.eq_dec (List.length (sent st)) k) as [Heq|Hne].
    + erewrite loop_malformed; [| rewrite Heq; exact Hk | exact Hok | exact Hc].
      right. split; [reflexivity | subst; len_tac].
    + cbn [attempt_loop]. unfold attempt_try, fetch.
      destruct (env (List.length (sent st))) as [e|s t c] eqn:He.
      * destruct (is_network_error e && negb (Nat.eqb att MAX_RETRIES)).
        -- apply IH. len_tac.
        -- left. len_tac.
      * destruct (response_ok s); cbn [negb].
        -- destruct c as [x|]; [destruct (truthy (JString x))|]; left; len_tac.
        -- destruct ((s =? 404)%Z || (s =? 429)%Z || (s =? 503)%Z);
             [destruct (has_property FREE_MODELS model0) | ]; cbn [andb];
             [destruct (negb (existsb (String.eqb model0) tried)) | |];
             [| left; len_tac ..].
           destruct (next_fallback (tried ++ [model0])) as [fb|]; [| left; len_tac].
           specialize (Hself fb (tried ++ [model0])
                         (record_request (build_request modelId personality0 prompt maxTokens) st)).
           destruct (self fb (tried ++ [model0])
                       (record_request (build_request modelId personality0 prompt maxTokens) st))
             as [r st2].
           cbn [fst snd] in Hself.
           destruct Hself as [Hs|[Hr Hs]]; [len_tac| |].
           ++ destruct r as [x|e| |]; try (left; exact Hs).
              destruct (is_network_error e && negb (Nat.eqb att MAX_RETRIES)).
              ** apply IH. exact Hs.
              ** left. exact Hs.
           ++ subst r. right. split; reflexivity || exact Hs.
Qed.

Lemma callGroq_stops fuel prompt personality0 length model0 tried :
  stops_at_malformed k (callGroq env fuel prompt personality0 length model0 tried).
Proof.
  revert model0 tried. induction fuel as [|fuel IH]; intros model0 tried st Hle.
  - left. exact Hle.
  - rewrite callGroq_S. apply attempt_loop_stops; [|exact Hle].
    intros fb tr. apply IH.
Qed.

(** C5: once a response with an ok status lacks
    [choices[0].message.content] (the [k]-th request), the call throws the
    missing-content error and sends no further request: no retry and no
    fallback follow it. *)
Theorem complete_malformed_terminal prompt personality0 length start :
  (k < List.length (sent (snd (complete env prompt personality0 length start))))%nat ->
  fst (complete env prompt personality0 length start) = Thrown missing_content_error /\
  List.length (sent (snd (complete env prompt personality0 length start))) = S k.
Proof.
  intros Hlt. unfold complete in *.
  destruct (callGroq_stops 8 prompt personality0 length start [] initial_state)
    as [Hle|H]; [cbn; lia | lia | exact H].
Qed.

End Malformed.

Lemma complete_malformed_terminal_witness :
  env_list [Response 200 "" None] 0 = Response 200 "" None /\
  response_ok 200 = true /\
  (forall x, @None string = Some x -> x = "") /\
  (0 < List.length (sent (snd (complete (env_list [Response 200 "" None]) "p" pro "short" "llama33"))))%nat /\
  (fst (complete (env_list [Response 200 "" None]) "p" pro "short" "llama33") = Thrown missing_content_error /\
   List.length (sent (snd (complete (env_list [Response 200 "" None]) "p" pro "short" "llama33"))) = 1%nat).
Proof.
  split; [reflexivity|]. split; [reflexivity|]. split; [intros x [=]|].
  split; [vm_compute; lia|].
  apply (complete_malformed_terminal (env_list [Response 200 "" None]) 0 200 "" None).
  - reflexivity.
  - reflexivity.
  - intros x [=].
  - vm_compute. lia.
Defined.

(** ** Shape of the requests *)

Section Requests.

Variable env : nat -> fetch_outcome.
Variables (prompt : string) (personality0 : personality) (length : string).

Lemma keeps_built_record modelId st :
  Forall (built_here prompt personality0 length) (sent st) ->
  Forall (built_here prompt personality0 length)
    (sent (record_request (build_request modelId personality0 prompt (max_tokens_for length)) st)).
Proof.
  intros H. cbn. apply Forall_app. split; [exact H|]. constructor; [|constructor].
  exists modelId. reflexivity.
Qed.

Lemma attempt_loop_keeps_built self model0 modelId :
  (forall fb tried, keeps_built prompt personality0 length (self fb tried)) ->
  forall rem att tried,
    keeps_built prompt personality0 length (attempt_loop env self prompt personality0 model0 modelId
                   (max_tokens_for length) rem att tried).
Proof.
  intros Hself rem. induction rem as [|rem IH]; intros att tried st H.
  - exact H.
  - pose proof (keeps_built_record modelId st H) as Hrec.
    cbn [attempt_loop]. unfold attempt_try, fetch.
    destruct (env (List.length (sent st))) as [e|s t c].
    + destruct (is_network_error e && negb (Nat.eqb att MAX_RETRIES)).
      * apply IH. exact Hrec.
      * exact Hrec.
    + destruct (response_ok s); cbn [negb].
      * destruct c as [x|]; [destruct (truthy (JString x))|]; cbn; exact Hrec.
      * destruct ((s =? 404)%Z || (s =? 429)%Z || (s =? 503)%Z);
          [destruct (has_property FREE_MODELS model0) | ]; cbn [andb];
          [destruct (negb (existsb (String.eqb model0) tried)) | |];
          [| cbn; exact Hrec ..].
        destruct (next_fallback (tried ++ [model0])) as [fb|]; [| cbn; exact Hrec].
        specialize (Hself fb (tried ++ [model0]) _ Hrec).
        destruct (self fb (tried ++ [model0]) _) as [r st2].
        cbn [snd] in Hself.
        destruct r as [x|e| |]; try exact Hself.
        cbn. destruct (is_network_error e && negb (Nat.eqb att MAX_RETRIES)).
        -- apply IH. exact Hself.
        -- exact Hself.
Qed.

Lemma callGroq_keeps_built fuel model0 tried :
  keeps_built prompt personality0 length (callGroq env fuel prompt personality0 length model0 tried).
Proof.
  revert model0 tried. induction fuel as [|fuel IH]; intros model0 tried st H.
  - exact H.
  - rewrite callGroq_S. apply attempt_loop_keeps_built; [|exact H].
    intros fb tr. apply IH.
Qed.

End Requests.

Lemma max_tokens_for_tiers length :
  (length = "short" /\ max_tokens_for length = JNumber 150) \/
  (length = "medium" /\ max_tokens_for length = JNumber 300) \/
  (length = "long" /\ max_tokens_for length = JNumber 500) \/
  (~ In length ["short"; "medium"; "long"] /\ max_tokens_for length = JNumber 300).
Proof.
  unfold max_tokens_for, RESPONSE_LENGTHS, get. cbn [own_property].
  destruct (String.eqb_spec length "short") as [->|N1]; [left; auto|].
  destruct (String.eqb_spec length "medium") as [->|N2]; [right; left; auto|].
  destruct (String.eqb_spec length "long") as [->|N3]; [right; right; left; auto|].
  right; right; right. split.
  - cbn. intuition congruence.
  - destruct (is_proto_member length); reflexivity.
Qed.

(** C9: every request of a call carries the persona's style instruction as
    its one system message and the prompt as its one user message, the
    temperature 0.7, and the token budget of the length tier (150, 300 or
    500), or 300 for any other tier name. *)
Theorem complete_requests_shape env prompt personality0 length start :
  Forall (fun r =>
      messages r = [{| msg_role := "system"; msg_content := style personality0 |};
                    {| msg_role := "user"; msg_content := prompt |}] /\
      temperature r = 7 # 10 /\
      ((length = "short" /\ max_tokens r = JNumber 150) \/
       (length = "medium" /\ max_tokens r = JNumber 300) \/
       (length = "long" /\ max_tokens r = JNumber 500) \/
       (~ In length ["short"; "medium"; "long"] /\ max_tokens r = JNumber 300)))
    (sent (snd (complete env prompt personality0 length start))).
Proof.
  pose proof (callGroq_keeps_built env prompt personality0 length 8 start [] initial_state
                (Forall_nil _)) as H.
  unfold complete. eapply Forall_impl; [|exact H].
  intros r [modelId ->]. cbn. split; [reflexivity|]. split; [reflexivity|].
  apply max_tokens_for_tiers.
Qed.

(** ** The fuel of [complete] is enough *)

Lemma untried_app (tried : list string) (m a : string) :
  negb (existsb (String.eqb a) (tried ++ [m])) =
  negb (existsb (String.eqb a) tried) && negb (String.eqb a m).
Proof.
  rewrite existsb_app. cbn. rewrite orb_false_r, negb_orb. reflexivity.
Qed.

Lemma filter_untried_le (tried : list string) (m : string) (l : list string) :
  (List.length (filter (fun a => negb (existsb (String.eqb a) (tried ++ [m]))) l) <=
   List.length (filter (fun a => negb (existsb (String.eqb a) tried)) l))%nat.
Proof.
  induction l as [|a l IH]; cbn; [lia|]. rewrite untried_app.
  destruct (negb (existsb (String.eqb a) tried)), (negb (String.eqb a m)); cbn; lia.
Qed.

Lemma filter_untried_lt (tried : list string) (m : string) (l : list string) :
  In m l -> existsb (String.eqb m) tried = false ->
  (List.length (filter (fun a => negb (existsb (String.eqb a) (tried ++ [m]))) l) <
   List.length (filter (fun a => negb (existsb (String.eqb a) tried)) l))%nat.
Proof.
  intros Hin Hm. induction l as [|a l IH]; [destruct Hin|]. cbn. rewrite untried_app.
  destruct Hin as [->|Hin].
  - rewrite Hm, String.eqb_refl. cbn. pose proof (filter_untried_le tried m l). lia.
  - specialize (IH Hin).
    destruct (negb (existsb (String.eqb a) tried)), (negb (String.eqb a m)); cbn; lia.
Qed.

Lemma filter_untried_eq (tried : list string) (m : string) (l : list string) :
  ~ In m l ->
  List.length (filter (fun a => negb (existsb (String.eqb a) (tried ++ [m]))) l) =
  List.length (filter (fun a => negb (existsb (String.eqb a) tried)) l).
Proof.
  intros Hin. induction l as [|a l IH]; cbn; [reflexivity|]. rewrite untried_app.
  destruct (String.eqb_spec a m) as [->|_]; [destruct Hin; left; reflexivity|].
  cbn [negb]. rewrite andb_true_r.
  assert (IH' := IH (fun H => Hin (or_intror H))).
  destruct (negb (existsb (String.eqb a) tried)); cbn; rewrite IH'; reflexivity.
Qed.

Lemma existsb_app_self (tried : list string) (m : string) :
  existsb (String.eqb m) (tried ++ [m]) = true.
Proof. rewrite existsb_app. cbn. rewrite String.eqb_refl. apply orb_true_r. Qed.

Lemma next_fallback_in tried fb :
  next_fallback tried = Some fb -> In fb MODEL_FALLBACK_ORDER.
Proof.
  intros H. unfold next_fallback in H. apply find_first in H.
  destruct H as (pre & post & -> & _). apply in_or_app. right. left. reflexivity.
Qed.

Lemma attempt_loop_fuel env self prompt personality0 model0 modelId maxTokens fuel' :
  (forall fb tr st, next_fallback tr = Some fb -> (untried_count tr < fuel')%nat ->
     fst (self fb tr st) <> OutOfFuel) ->
  forall rem att tried st,
    (existsb (String.eqb model0) tried = false ->
     (untried_count (tried ++ [model0]) < fuel')%nat) ->
    fst (attempt_loop env self prompt personality0 model0 modelId maxTokens
           rem att tried st) <> OutOfFuel.
Proof.
  intros Hself rem. induction rem as [|rem IH]; intros att tried st Hq.
  - discriminate.
  - cbn [attempt_loop]. unfold attempt_try, fetch.
    destruct (env (List.length (sent st))) as [e|s t c].
    + destruct (is_network_error e && negb (Nat.eqb att MAX_RETRIES));
        [apply IH; exact Hq | discriminate].
    + destruct (response_ok s); cbn [negb].
      * destruct c as [x|]; [destruct (truthy (JString x))|]; cbn; discriminate.
      * destruct ((s =? 404)%Z || (s =? 429)%Z || (s =? 503)%Z);
          [destruct (has_property FREE_MODELS model0) | ]; cbn [andb];
          [destruct (existsb (String.eqb model0) tried) eqn:Hm | |];
          cbn [negb]; [cbn; discriminate | | cbn; discriminate ..].
        destruct (next_fallback (tried ++ [model0])) as [fb|] eqn:Hn;
          [| cbn; discriminate].
        specialize (Hself fb (tried ++ [model0])
                      (record_request (build_request modelId personality0 prompt maxTokens) st)
                      Hn (Hq eq_refl)).
        destruct (self fb (tried ++ [model0]) _) as [r st2].
        cbn [fst] in Hself.
        destruct r as [x|e| |]; cbn; try discriminate; [|contradiction].
        destruct (is_network_error e && negb (Nat.eqb att MAX_RETRIES)); [|discriminate].
        apply IH. rewrite existsb_app_self. discriminate.
Qed.

Lemma callGroq_fuel env fuel prompt personality0 length model0 tried st :
  (untried_count tried
   + (if existsb (String.eqb model0) MODEL_FALLBACK_ORDER then 0 else 1) < fuel)%nat ->
  fst (callGroq env fuel prompt personality0 length model0 tried st) <> OutOfFuel.
Proof.
  revert model0 tried st. induction fuel as [|fuel IH]; intros model0 tried st Hf; [lia|].
  rewrite callGroq_S. apply (attempt_loop_fuel _ _ _ _ _ _ _ fuel).
  - intros fb tr st' Hn Hlt. apply IH.
    apply next_fallback_in in Hn.
    assert (Hfb : existsb (String.eqb fb) MODEL_FALLBACK_ORDER = true)
      by (apply existsb_exists; exists fb; split; [exact Hn | apply String.eqb_refl]).
    rewrite Hfb. lia.
  - intros Hm. unfold untried_count in *.
    destruct (existsb (String.eqb model0) MODEL_FALLBACK_ORDER) eqn:Ho.
    + apply existsb_exists in Ho. destruct Ho as (x & Hx & E).
      apply String.eqb_eq in E. subst x.
      pose proof (filter_untried_lt tried model0 MODEL_FALLBACK_ORDER Hx Hm). lia.
    + rewrite filter_untried_eq; [lia|].
      intros Hin. rewrite <- (untried_false MODEL_FALLBACK_ORDER model0) in Hin.
      rewrite Ho in Hin. discriminate.
Qed.

(** The fuel 8 of [complete] is never exhausted: a chain of frames is at
    most 7 long. *)
Lemma complete_not_out_of_fuel env prompt personality0 length start :
  fst (complete env prompt personality0 length start) <> OutOfFuel.
Proof.
  apply callGroq_fuel.
  destruct (existsb (String.eqb start) MODEL_FALLBACK_ORDER); cbn; lia.
Qed.

(** ** [callGroq] always settles with a [return] or a [throw] *)

Lemma attempt_loop_defined env self prompt personality0 model0 modelId maxTokens :
  (forall fb tr st, fst (self fb tr st) <> Undefined) ->
  forall rem att tried st, (rem + att = 4)%nat -> (att <= 3)%nat ->
    fst (attempt_loop env self prompt personality0 model0 modelId maxTokens
           rem att tried st) <> Undefined.
Proof.
  intros Hself rem. induction rem as [|rem IH]; intros att tried st Hs Ha; [lia|].
  cbn [attempt_loop]. unfold attempt_try, fetch.
  assert (Hretry : forall e, is_network_error e && negb (Nat.eqb att MAX_RETRIES) = true ->
            (rem + S att = 4)%nat /\ (S att <= 3)%nat).
  { intros e He. apply andb_prop in He. destruct He as [_ He].
    apply negb_true_iff, Nat.eqb_neq in He. unfold MAX_RETRIES in He. lia. }
  destruct (env (List.length (sent st))) as [e|s t c].
  - destruct (is_network_error e && negb (Nat.eqb att MAX_RETRIES)) eqn:Hn;
      [destruct (Hretry e Hn); apply IH; assumption | discriminate].
  - destruct (response_ok s); cbn [negb].
    + destruct c as [x|]; [destruct (truthy (JString x))|]; cbn; discriminate.
    + destruct ((s =? 404)%Z || (s =? 429)%Z || (s =? 503)%Z);
        [destruct (has_property FREE_MODELS model0) | ]; cbn [andb];
        [destruct (negb (existsb (String.eqb model0) tried)) | |];
        [| cbn; discriminate ..].
      destruct (next_fallback (tried ++ [model0])) as [fb|]; [| cbn; discriminate].
      specialize (Hself fb (tried ++ [model0])
                    (record_request (build_request modelId personality0 prompt maxTokens) st)).
      destruct (self fb (tried ++ [model0]) _) as [r st2].
      cbn [fst] in Hself.
      destruct r as [x|e| |]; cbn; try discriminate; [|contradiction].
      destruct (is_network_error e && negb (Nat.eqb att MAX_RETRIES)) eqn:Hn; [|discriminate].
      destruct (Hretry e Hn). apply IH; assumption.
Qed.

Lemma callGroq_not_undefined env fuel prompt personality0 length model0 tried st :
  fst (callGroq env fuel prompt personality0 length model0 tried st) <> Undefined.
Proof.
  revert model0 tried st. induction fuel as [|fuel IH]; intros model0 tried st.
  - discriminate.
  - rewrite callGroq_S. apply attempt_loop_defined; [intros; apply IH | lia | lia].
Qed.

(** The [while] loop of [callGroq] is never left by its test: every frame
    settles by [return] or [throw], so a call never resolves to
    [undefined] (only the proof's recursion fuel can run out). *)
Theorem callGroq_never_undefined env fuel prompt personality0 length model0 tried st :
  fst (callGroq env fuel prompt personality0 length model0 tried st) <> Undefined.
Proof. exact (callGroq_not_undefined env fuel prompt personality0 length model0 tried st). Qed.

(** ** The rate limiter *)

Lemma map_get_in (m : rate_map) ip d : map_get m ip = Some d -> In (ip, d) m.
Proof.
  induction m as [|[ip' d'] m IH]; cbn; [discriminate|].
  destruct (String.eqb_spec ip ip') as [->|_]; [intros [= ->]; left; reflexivity|].
  intros H. right. exact (IH H).
Qed.

Lemma map_get_notin (m : rate_map) ip : ~ In ip (map fst m) -> map_get m ip = None.
Proof.
  induction m as [|[ip' d'] m IH]; cbn; [reflexivity|]. intros Hn.
  destruct (String.eqb_spec ip ip') as [->|_]; [destruct Hn; left; reflexivity|].
  apply IH. intros H; apply Hn; right; exact H.
Qed.

Lemma map_get_filter_some (f : string * client_data -> bool) (m : rate_map) ip d :
  map_get m ip = Some d -> f (ip, d) = true -> map_get (filter f m) ip = Some d.
Proof.
  induction m as [|[ip' d'] m IH]; cbn; [discriminate|].
  destruct (String.eqb_spec ip ip') as [->|Hne].
  - intros [= ->] Hf. rewrite Hf. cbn. rewrite String.eqb_refl. reflexivity.
  - intros H Hf. destruct (f (ip', d')); cbn; [|apply IH; assumption].
    destruct (String.eqb_spec ip ip'); [contradiction|]. apply IH; assumption.
Qed.

Lemma map_get_filter_none (f : string * client_data -> bool) (m : rate_map) ip :
  map_get m ip = None -> map_get (filter f m) ip = None.
Proof.
  induction m as [|[ip' d'] m IH]; cbn; [reflexivity|].
  destruct (String.eqb_spec ip ip') as [->|Hne]; [discriminate|].
  intros H. destruct (f (ip', d')); cbn; [|apply IH; assumption].
  destruct (String.eqb_spec ip ip'); [contradiction|]. apply IH; assumption.
Qed.

Lemma map_fst_filter_incl (f : string * client_data -> bool) (m : rate_map) ip :
  In ip (map fst (filter f m)) -> In ip (map fst m).
Proof.
  induction m as [|[ip' d'] m IH]; cbn; [auto|].
  destruct (f (ip', d')); cbn; [intros [H|H]; [left|right; apply IH]; assumption|].
  intros H; right; apply IH; exact H.
Qed.

Lemma nodup_filter (f : string * client_data -> bool) (m : rate_map) :
  NoDup (map fst m) -> NoDup (map fst (filter f m)).
Proof.
  induction m as [|[ip' d'] m IH]; cbn; [auto|]. intros H.
  apply NoDup_cons_iff in H. destruct H as [Hn Hd].
  destruct (f (ip', d')); cbn; [|apply IH; exact Hd].
  constructor; [|apply IH; exact Hd]. intros Hin. apply Hn.
  eapply map_fst_filter_incl. exact Hin.
Qed.

Lemma map_get_clean_up now (m : rate_map) ip :
  NoDup (map fst m) ->
  map_get (clean_up now m) ip =
  match map_get m ip with
  | Some d => if (now - timestamp d >? RATE_LIMIT_WINDOW_MS)%Z then None else Some d
  | None => None
  end.
Proof.
  unfold clean_up. induction m as [|[ip' d'] m IH]; cbn; [reflexivity|]. intros H.
  apply NoDup_cons_iff in H. destruct H as [Hn Hd].
  destruct (String.eqb_spec ip ip') as [->|Hne].
  - destruct (now - timestamp d' >? RATE_LIMIT_WINDOW_MS)%Z; cbn.
    + apply map_get_notin. intros Hin. apply Hn.
      eapply map_fst_filter_incl. exact Hin.
    + rewrite String.eqb_refl. reflexivity.
  - destruct (now - timestamp d' >? RATE_LIMIT_WINDOW_MS)%Z; cbn;
      [|destruct (String.eqb_spec ip ip'); [contradiction|]]; apply IH; exact Hd.
Qed.

Lemma map_get_set_same (m : rate_map) ip d : map_get (map_set m ip d) ip = Some d.
Proof.
  induction m as [|[ip' d'] m IH]; cbn; [rewrite String.eqb_refl; reflexivity|].
  destruct (String.eqb_spec ip ip') as [->|Hne]; cbn.
  - rewrite String.eqb_refl. reflexivity.
  - destruct (String.eqb_spec ip ip'); [contradiction|]. exact IH.
Qed.

Lemma map_get_set_other (m : rate_map) ip ip' d :
  ip' <> ip -> map_get (map_set m ip d) ip' = map_get m ip'.
Proof.
  intros Hne. induction m as [|[k d'] m IH]; cbn.
  - destruct (String.eqb_spec ip' ip); [contradiction|reflexivity].
  - destruct (String.eqb_spec ip k) as [->|Hk]; cbn.
    + destruct (String.eqb_spec ip' k); [contradiction|reflexivity].
    + destruct (String.eqb ip' k); [reflexivity|exact IH].
Qed.

Lemma map_fst_set (m : rate_map) ip d ip' :
  In ip' (map fst (map_set m ip d)) -> ip' = ip \/ In ip' (map fst m).
Proof.
  induction m as [|[k d'] m IH]; cbn.
  - intros [H|[]]. left. congruence.
  - destruct (String.eqb_spec ip k) as [->|Hk]; cbn; [intros H; right; exact H|].
    intros [H|H]; [right; left; exact H|]. destruct (IH H); [left|right; right]; assumption.
Qed.

Lemma nodup_set (m : rate_map) ip d :
  NoDup (map fst m) -> NoDup (map fst (map_set m ip d)).
Proof.
  induction m as [|[k d'] m IH]; cbn; intros H.
  - constructor; [intros []|constructor].
  - apply NoDup_cons_iff in H. destruct H as [Hn Hd].
    destruct (String.eqb_spec ip k) as [->|Hk]; cbn; [constructor; assumption|].
    constructor; [|apply IH; exact Hd].
    intros Hin. destruct (map_fst_set m ip d k Hin) as [E|E]; [congruence|contradiction].
Qed.

(** After any request, admitted or refused, every entry left in
    [debateRateLimiter] is at most [RATE_LIMIT_WINDOW_MS] old with respect
    to that request's time: expired clients are always dropped. *)
Theorem rate_limit_entries_fresh (m : rate_map) clientIp now :
  Forall (fun '(_, d) => (now - timestamp d <= RATE_LIMIT_WINDOW_MS)%Z)
    (snd (rate_limit m clientIp now)).
Proof.
  assert (Hc : Forall (fun '(_, d) => (now - timestamp d <= RATE_LIMIT_WINDOW_MS)%Z)
                 (clean_up now m)).
  { apply Forall_forall. intros [ip d] Hin. unfold clean_up in Hin.
    apply filter_In in Hin. destruct Hin as [_ H]. apply negb_true_iff in H.
    rewrite Z.gtb_ltb in H. apply Z.ltb_ge in H. exact H. }
  assert (Hs : forall m' ip d, Forall (fun '(_, d) => (now - timestamp d <= RATE_LIMIT_WINDOW_MS)%Z) m' ->
            (now - timestamp d <= RATE_LIMIT_WINDOW_MS)%Z ->
            Forall (fun '(_, d) => (now - timestamp d <= RATE_LIMIT_WINDOW_MS)%Z) (map_set m' ip d)).
  { intros m' ip d. induction m' as [|[k d'] m' IH]; cbn; intros Hf Hd.
    - constructor; [exact Hd|constructor].
    - inversion Hf; subst. destruct (String.eqb ip k); constructor; auto. }
  unfold rate_limit.
  destruct (_ && _); [exact Hc|]. cbn [snd]. apply Hs; [exact Hc|].
  destruct (now - timestamp _ >? RATE_LIMIT_WINDOW_MS)%Z eqn:E; cbn.
  - unfold RATE_LIMIT_WINDOW_MS. lia.
  - rewrite Z.gtb_ltb in E. apply Z.ltb_ge in E. exact E.
Qed.

(** For a map with distinct keys (as a [Map] has): a request is refused
    exactly when the client has a record with [count >= 20] less than
    [RATE_LIMIT_WINDOW_MS] old; a refused request only drops the expired
    entries.  An admitted request stores for its client the old record with
    the count increased by one, or [{count: 1, timestamp: now}] when the
    client had no live record, leaves the other live records as they were,
    and keeps the keys distinct. *)
Theorem rate_limit_decision (m : rate_map) clientIp now :
  NoDup (map fst m) ->
  (fst (rate_limit m clientIp now) = false <->
     exists d, map_get m clientIp = Some d /\ (MAX_DEBATES_PER_WINDOW <= count d)%Z /\
               (now - timestamp d < RATE_LIMIT_WINDOW_MS)%Z) /\
  (fst (rate_limit m clientIp now) = false -> snd (rate_limit m clientIp now) = clean_up now m) /\
  (fst (rate_limit m clientIp now) = true ->
     map_get (snd (rate_limit m clientIp now)) clientIp =
       Some (match map_get m clientIp with
             | Some d =>
                 if (now - timestamp d <=? RATE_LIMIT_WINDOW_MS)%Z
                 then {| count := count d + 1; timestamp := timestamp d |}
                 else {| count := 1; timestamp := now |}
             | None => {| count := 1; timestamp := now |}
             end) /\
     forall ip', ip' <> clientIp ->
       map_get (snd (rate_limit m clientIp now)) ip' = map_get (clean_up now m) ip') /\
  NoDup (map fst (snd (rate_limit m clientIp now))).
Proof.
  intros Hnd. unfold rate_limit. rewrite (map_get_clean_up now m clientIp Hnd).
  assert (Hnd' := nodup_filter (fun '(_, data) => negb (now - timestamp data >? RATE_LIMIT_WINDOW_MS)%Z) m Hnd).
  fold (clean_up now m) in Hnd'.
  unfold MAX_DEBATES_PER_WINDOW, RATE_LIMIT_WINDOW_MS in *.
  destruct (map_get m clientIp) as [[c ts]|] eqn:Hg; cbn [count timestamp].
  - destruct (Z.gtb_spec (now - ts) 60000) as [Hold|Hlive]; cbn [count timestamp].
    + assert (E1 : (0 >=? 20)%Z = false) by reflexivity. rewrite E1. cbn [andb].
      assert (E2 : (now - now >? 60000)%Z = false) by (rewrite Z.sub_diag; reflexivity).
      rewrite E2. cbn [fst snd].
      assert (E3 : (now - ts <=? 60000)%Z = false) by (apply Z.leb_gt; lia). rewrite E3.
      split; [split; [discriminate|intros (d & [= <-] & H1 & H2); cbn in *; lia]|].
      split; [discriminate|]. split; [intros _; split|apply nodup_set; exact Hnd'].
      * apply map_get_set_same.
      * intros ip' Hne. apply map_get_set_other. exact Hne.
    + destruct (Z.geb_spec c 20) as [Hc|Hc]; destruct (Z.ltb_spec (now - ts) 60000) as [Hw|Hw];
        cbn [andb fst snd].
      * split; [split; [intros _; exists {| count := c; timestamp := ts |}; cbn; auto|reflexivity]|].
        split; [reflexivity|]. split; [discriminate|exact Hnd'].
      * assert (E2 : (now - ts >? 60000)%Z = false) by (rewrite Z.gtb_ltb; apply Z.ltb_ge; lia).
        assert (E3 : (now - ts <=? 60000)%Z = true) by (apply Z.leb_le; lia).
        rewrite E2, E3.
        split; [split; [discriminate|intros (d & [= <-] & H1 & H2); cbn in *; lia]|].
        split; [discriminate|]. split; [intros _; split|apply nodup_set; exact Hnd'].
        -- apply map_get_set_same.
        -- intros ip' Hne. apply map_get_set_other. exact Hne.
      * assert (E2 : (now - ts >? 60000)%Z = false) by (rewrite Z.gtb_ltb; apply Z.ltb_ge; lia).
        assert (E3 : (now - ts <=? 60000)%Z = true) by (apply Z.leb_le; lia).
        rewrite E2, E3.
        split; [split; [discriminate|intros (d & [= <-] & H1 & H2); cbn in *; lia]|].
        split; [discriminate|]. split; [intros _; split|apply nodup_set; exact Hnd'].
        -- apply map_get_set_same.
        -- intros ip' Hne. apply map_get_set_other. exact Hne.
      * assert (E2 : (now - ts >? 60000)%Z = false) by (rewrite Z.gtb_ltb; apply Z.ltb_ge; lia).
        assert (E3 : (now - ts <=? 60000)%Z = true) by (apply Z.leb_le; lia).
        rewrite E2, E3.
        split; [split; [discriminate|intros (d & [= <-] & H1 & H2); cbn in *; lia]|].
        split; [discriminate|]. split; [intros _; split|apply nodup_set; exact Hnd'].
        -- apply map_get_set_same.
        -- intros ip' Hne. apply map_get_set_other. exact Hne.
  - assert (E1 : (0 >=? 20)%Z = false) by reflexivity. rewrite E1. cbn [andb].
    assert (E2 : (now - now >? 60000)%Z = false) by (rewrite Z.sub_diag; reflexivity).
    rewrite E2. cbn [fst snd].
    split; [split; [discriminate|intros (d & [=] & _)]|].
    split; [discriminate|]. split; [intros _; split|apply nodup_set; exact Hnd'].
    + apply map_get_set_same.
    + intros ip' Hne. apply map_get_set_other. exact Hne.
Qed.

Lemma rate_limit_decision_witness :
  NoDup (map fst [("10.0.0.1", {| count := 20; timestamp := 0 |})]) /\
  fst (rate_limit [("10.0.0.1", {| count := 20; timestamp := 0 |})] "10.0.0.1" 59999) = false.
Proof.
  split; [repeat constructor; intros []|].
  apply (rate_limit_decision [("10.0.0.1", {| count := 20; timestamp := 0 |})] "10.0.0.1" 59999);
    [repeat constructor; intros []|].
  exists {| count := 20; timestamp := 0 |}. cbn. repeat split; discriminate.
Defined.

Lemma rate_limit_live (m : rate_map) clientIp now c t0 :
  map_get m clientIp = Some {| count := c; timestamp := t0 |} ->
  (now - t0 <= RATE_LIMIT_WINDOW_MS)%Z ->
  rate_limit m clientIp now =
    if (c >=? MAX_DEBATES_PER_WINDOW)%Z && (now - t0 <? RATE_LIMIT_WINDOW_MS)%Z
    then (false, clean_up now m)
    else (true, map_set (clean_up now m) clientIp {| count := c + 1; timestamp := t0 |}).
Proof.
  intros Hg Hw. unfold rate_limit, clean_up.
  rewrite (map_get_filter_some _ m clientIp _ Hg)
    by (cbn; apply negb_true_iff; rewrite Z.gtb_ltb; apply Z.ltb_ge; exact Hw).
  cbn [count timestamp].
  assert (E : (now - t0 >? RATE_LIMIT_WINDOW_MS)%Z = false)
    by (rewrite Z.gtb_ltb; apply Z.ltb_ge; exact Hw).
  rewrite E. reflexivity.
Qed.

Lemma rate_limit_run_live (times : list Z) :
  forall (m : rate_map) clientIp c t0,
    map_get m clientIp = Some {| count := c; timestamp := t0 |} ->
    Forall (fun t => (t - t0 < RATE_LIMIT_WINDOW_MS)%Z) times ->
    fst (rate_limit_run m clientIp times) =
      (repeat true (Nat.min (List.length times) (Z.to_nat (MAX_DEBATES_PER_WINDOW - c)))
       ++ repeat false (List.length times - Z.to_nat (MAX_DEBATES_PER_WINDOW - c)))%list.
Proof.
  induction times as [|t times IH]; intros m clientIp c t0 Hg Hf; [reflexivity|].
  inversion Hf as [|? ? Ht Hf']; subst.
  cbn [rate_limit_run].
  rewrite (rate_limit_live m clientIp t c t0 Hg) by lia.
  assert (Ew : (t - t0 <? RATE_LIMIT_WINDOW_MS)%Z = true) by (apply Z.ltb_lt; exact Ht).
  rewrite Ew, andb_true_r. unfold MAX_DEBATES_PER_WINDOW in *.
  destruct (Z.geb_spec c 20) as [Hc|Hc].
  - assert (Hg' : map_get (clean_up t m) clientIp = Some {| count := c; timestamp := t0 |}).
    { apply map_get_filter_some; [exact Hg|].
      cbn. apply negb_true_iff. rewrite Z.gtb_ltb. apply Z.ltb_ge.
      unfold RATE_LIMIT_WINDOW_MS in *. lia. }
    specialize (IH _ _ _ _ Hg' Hf').
    destruct (rate_limit_run (clean_up t m) clientIp times) as [bs m2].
    cbn [fst] in *. rewrite IH.
    replace (Z.to_nat (20 - c)) with 0%nat by lia. cbn [List.length].
    rewrite Nat.min_0_r, !Nat.sub_0_r. reflexivity.
  - specialize (IH _ clientIp (c + 1)%Z t0 (map_get_set_same (clean_up t m) clientIp _) Hf').
    destruct (rate_limit_run (map_set (clean_up t m) clientIp
                {| count := (c + 1)%Z; timestamp := t0 |}) clientIp times) as [bs m2].
    cbn [fst] in *. rewrite IH.
    replace (Z.to_nat (20 - c)) with (S (Z.to_nat (20 - (c + 1)))) by lia.
    cbn [List.length Nat.min repeat Nat.sub]. reflexivity.
Qed.

(** A client with no record that sends requests at times all less than
    [RATE_LIMIT_WINDOW_MS] after its first one gets exactly its first 20
    requests admitted and every later one refused. *)
Theorem rate_limit_burst (m : rate_map) clientIp (t0 : Z) (times : list Z) :
  map_get m clientIp = None ->
  Forall (fun t => (t - t0 < RATE_LIMIT_WINDOW_MS)%Z) times ->
  fst (rate_limit_run m clientIp (t0 :: times)) =
    (repeat true (Nat.min (S (List.length times)) 20)
     ++ repeat false (S (List.length times) - 20))%list.
Proof.
  intros Hg Hf. cbn [rate_limit_run]. unfold rate_limit, clean_up.
  rewrite (map_get_filter_none _ m clientIp Hg). cbn [count timestamp].
  rewrite Z.sub_diag. cbn [Z.geb Z.compare andb Z.gtb].
  unfold MAX_DEBATES_PER_WINDOW. cbn [Z.compare].
  change ((0 >=? 20)%Z) with false. cbn [andb].
  change ((0 >? RATE_LIMIT_WINDOW_MS)%Z) with false. cbn iota.
  pose proof (rate_limit_run_live times _ clientIp (0 + 1)%Z t0
                (map_get_set_same (clean_up t0 m) clientIp _) Hf) as H.
  destruct (rate_limit_run _ clientIp times) as [bs m2]. cbn [fst] in *. rewrite H.
  unfold MAX_DEBATES_PER_WINDOW. change (Z.to_nat (20 - (0 + 1))) with 19%nat.
  destruct (Nat.le_gt_cases (List.length times) 19) as [Hl|Hl].
  - rewrite Nat.min_l, Nat.min_l by lia.
    replace (List.length times - 19)%nat with 0%nat by lia.
    replace (S (List.length times) - 20)%nat with 0%nat by lia. reflexivity.
  - rewrite Nat.min_r, Nat.min_r by lia.
    replace (S (List.length times) - 20)%nat with (List.length times - 19)%nat by lia.
    reflexivity.
Qed.

Lemma rate_limit_burst_witness :
  map_get [] "10.0.0.1" = None /\
  Forall (fun t => (t - 1000 < RATE_LIMIT_WINDOW_MS)%Z) (repeat 2000%Z 24) /\
  fst (rate_limit_run [] "10.0.0.1" (1000%Z :: repeat 2000%Z 24)) =
    (repeat true 20 ++ repeat false 5)%list.
Proof.
  split; [reflexivity|]. split; [repeat constructor|].
  apply (rate_limit_burst [] "10.0.0.1" 1000 (repeat 2000%Z 24)); [reflexivity|].
  repeat constructor.
Defined.

(** A client whose record is exactly [RATE_LIMIT_WINDOW_MS] old is admitted
    whatever its count, and its record is neither reset nor dropped: the
    count grows by one and the window start stays. *)
Theorem rate_limit_window_edge (m : rate_map) clientIp d :
  map_get m clientIp = Some d ->
  rate_limit m clientIp (timestamp d + RATE_LIMIT_WINDOW_MS) =
    (true, map_set (clean_up (timestamp d + RATE_LIMIT_WINDOW_MS) m) clientIp
             {| count := count d + 1; timestamp := timestamp d |}).
Proof.
  destruct d as [c t0]. cbn [count timestamp]. intros Hg.
  rewrite (rate_limit_live m clientIp _ c t0 Hg) by lia.
  replace (t0 + RATE_LIMIT_WINDOW_MS - t0)%Z with RATE_LIMIT_WINDOW_MS by lia.
  rewrite Z.ltb_irrefl, andb_false_r. reflexivity.
Qed.

Lemma rate_limit_window_edge_witness :
  map_get [("10.0.0.1", {| count := 25; timestamp := 5 |})] "10.0.0.1" =
    Some {| count := 25; timestamp := 5 |} /\
  rate_limit [("10.0.0.1", {| count := 25; timestamp := 5 |})] "10.0.0.1" (5 + RATE_LIMIT_WINDOW_MS)%Z =
    (true, map_set (clean_up (5 + RATE_LIMIT_WINDOW_MS)%Z [("10.0.0.1", {| count := 25; timestamp := 5 |})])
             "10.0.0.1" {| count := (25 + 1)%Z; timestamp := 5 |}).
Proof.
  split; [reflexivity|].
  apply (rate_limit_window_edge _ "10.0.0.1" {| count := 25; timestamp := 5 |}). reflexivity.
Defined.

(** ** Validation of the debate request *)

Lemma drop_spaces_nil (l : list ascii) :
  drop_spaces l = [] <-> Forall (fun c => is_js_space c = true) l.
Proof.
  induction l as [|a l IH]; cbn; [split; auto|].
  destruct (is_js_space a) eqn:E.
  - rewrite IH. split; [intros H; constructor; assumption|intros H; inversion H; assumption].
  - split; [discriminate|intros H; inversion H; congruence].
Qed.

Lemma drop_spaces_head (l : list ascii) :
  Forall (fun c => is_js_space c = true) (drop_spaces l) -> drop_spaces l = [].
Proof.
  induction l as [|a l IH]; cbn; [auto|].
  destruct (is_js_space a) eqn:E; [exact IH|]. intros H; inversion H; congruence.
Qed.

Lemma trim_blank (s : string) :
  trim s = "" <-> Forall (fun c => is_js_space c = true) (list_ascii_of_string s).
Proof.
  unfold trim. split.
  - intros H.
    assert (H0 : rev (drop_spaces (rev (drop_spaces (list_ascii_of_string s)))) = []).
    { destruct (rev (drop_spaces (rev (drop_spaces (list_ascii_of_string s))))); 
        [reflexivity|discriminate]. }
    apply (f_equal (@rev ascii)) in H0. rewrite rev_involutive in H0. cbn in H0.
    apply drop_spaces_nil, Forall_rev in H0. rewrite rev_involutive in H0.
    apply drop_spaces_nil, drop_spaces_head. exact H0.
  - intros H. apply drop_spaces_nil in H. rewrite H. reflexivity.
Qed.

Lemma trim_nonblank_nonempty (t : string) : trim t <> "" -> String.eqb t "" = false.
Proof. intros H. destruct (String.eqb_spec t "") as [->|]; [contradiction H|]; reflexivity. Qed.

Lemma rounds_test_iff (r : Z) :
  (r =? 0)%Z || (r <? 1)%Z || (r >? 10)%Z = true <-> ~ (1 <= r <= 10)%Z.
Proof.
  rewrite !orb_true_iff, Z.eqb_eq, Z.ltb_lt, Z.gtb_ltb, Z.ltb_lt. lia.
Qed.

Lemma length_test_iff (len : string) :
  String.eqb len "" || negb (truthy (get RESPONSE_LENGTHS len)) = true <->
  ~ In len ["short"; "medium"; "long"] /\ is_proto_member len = false.
Proof.
  unfold get, RESPONSE_LENGTHS. cbn [own_property].
  destruct (String.eqb_spec len "short") as [->|N1]; [cbn; split; [discriminate|intuition]|].
  destruct (String.eqb_spec len "medium") as [->|N2]; [cbn; split; [discriminate|intuition]|].
  destruct (String.eqb_spec len "long") as [->|N3]; [cbn; split; [discriminate|intuition]|].
  assert (Hn : ~ In len ["short"; "medium"; "long"]) by (cbn; intuition congruence).
  destruct (String.eqb_spec len "") as [->|N0];
    [split; [intros _; split; [exact Hn|reflexivity]|intros _; reflexivity]|].
  cbn [orb].
  destruct (is_proto_member len); cbn [truthy negb].
  - split; [discriminate|intros [_ H]; discriminate].
  - split; [intros _; split; [exact Hn|reflexivity]|reflexivity].
Qed.

(** Closes [X = (reply, map, st) -> False] when no branch of [X] yields that
    reply. *)
Ltac no_such_reply :=
  repeat match goal with
  | |- (if ?b then _ else _) = _ -> _ => destruct b
  | |- (let '(_, _) := ?x in _) = _ -> _ => destruct x
  | |- match ?x with _ => _ end = _ -> _ => destruct x
  end; discriminate.

(** An admitted debate request whose [topic] is absent, empty or made only
    of whitespace (tab, line breaks, space, no-break space) is answered 400
    ['Topic is required'], and only such requests are; the reply sends no
    request to the endpoint, and the rate-limit slot stays taken. *)
Theorem debate_blank_topic env key limiter clientIp now body st :
  fst (rate_limit limiter clientIp now) = true ->
  (debate_handler env key limiter clientIp now body st =
     (BadRequest "Topic is required", snd (rate_limit limiter clientIp now), st) <->
   match topic body with
   | None => True
   | Some t => Forall (fun c => is_js_space c = true) (list_ascii_of_string t)
   end).
Proof.
  intros Ha. unfold debate_handler.
  destruct (rate_limit limiter clientIp now) as [adm lim1]. cbn [fst snd] in *. subst adm.
  cbv beta iota zeta. cbn [negb].
  destruct (topic body) as [t|]; [|tauto].
  destruct (String.eqb_spec t "") as [->|N0]; cbn [orb].
  - split; [intros _; constructor|reflexivity].
  - destruct (String.eqb_spec (trim t) "") as [E|N1].
    + split; [intros _; apply trim_blank; exact E|reflexivity].
    + split; [|intros H; apply trim_blank in H; contradiction].
      no_such_reply.
Qed.

Lemma debate_blank_topic_witness :
  fst (rate_limit [] "10.0.0.1" 0) = true /\
  debate_handler (env_list []) (Some "k") [] "10.0.0.1" 0
    {| topic := Some (String (ascii_of_nat 9) " "); rounds := Some 3%Z;
       responseLength := Some "short"; body_model := None |} initial_state =
  (BadRequest "Topic is required", snd (rate_limit [] "10.0.0.1" 0), initial_state).
Proof.
  split; [reflexivity|].
  apply (debate_blank_topic (env_list []) (Some "k") [] "10.0.0.1" 0
    {| topic := Some (String (ascii_of_nat 9) " "); rounds := Some 3%Z;
       responseLength := Some "short"; body_model := None |} initial_state);
    [reflexivity|].
  cbn. repeat constructor.
Defined.

(** An admitted debate request with a non-blank [topic] is answered 400
    ['Rounds must be between 1 and 10'] exactly when [rounds] is absent or
    an integer outside 1..10; the reply sends no request to the endpoint. *)
Theorem debate_rounds_checked env key limiter clientIp now body st t :
  fst (rate_limit limiter clientIp now) = true ->
  topic body = Some t -> trim t <> "" ->
  (debate_handler env key limiter clientIp now body st =
     (BadRequest "Rounds must be between 1 and 10", snd (rate_limit limiter clientIp now), st) <->
   match rounds body with
   | None => True
   | Some r => ~ (1 <= r <= 10)%Z
   end).
Proof.
  intros Ha Ht Hb. unfold debate_handler.
  destruct (rate_limit limiter clientIp now) as [adm lim1]. cbn [fst snd] in *. subst adm.
  cbv beta iota zeta. cbn [negb]. rewrite Ht, (trim_nonblank_nonempty t Hb).
  destruct (String.eqb_spec (trim t) "") as [E|_]; [contradiction|]. cbn [orb].
  destruct (rounds body) as [r|]; [|tauto].
  destruct ((r =? 0)%Z || (r <? 1)%Z || (r >? 10)%Z) eqn:Er.
  - apply rounds_test_iff in Er. tauto.
  - split; [no_such_reply|]. intros H. apply rounds_test_iff in H. congruence.
Qed.

Lemma debate_rounds_checked_witness :
  fst (rate_limit [] "10.0.0.1" 0) = true /\
  trim "AI" <> "" /\
  debate_handler (env_list []) (Some "k") [] "10.0.0.1" 0
    {| topic := Some "AI"; rounds := Some 11%Z;
       responseLength := Some "short"; body_model := None |} initial_state =
  (BadRequest "Rounds must be between 1 and 10", snd (rate_limit [] "10.0.0.1" 0), initial_state).
Proof.
  split; [reflexivity|]. split; [discriminate|].
  apply (debate_rounds_checked (env_list []) (Some "k") [] "10.0.0.1" 0
    {| topic := Some "AI"; rounds := Some 11%Z;
       responseLength := Some "short"; body_model := None |} initial_state "AI");
    [reflexivity | reflexivity | discriminate |].
  cbn. lia.
Defined.

(** An admitted debate request with a non-blank [topic] and [rounds] in
    1..10 is answered 400 ['Invalid response length'] exactly when
    [responseLength] is absent, or is none of short, medium, long and no
    member name of [Object.prototype]: a name such as ['toString'] passes
    the check.  The reply sends no request to the endpoint. *)
Theorem debate_length_checked env key limiter clientIp now body st t r :
  fst (rate_limit limiter clientIp now) = true ->
  topic body = Some t -> trim t <> "" ->
  rounds body = Some r -> (1 <= r <= 10)%Z ->
  (debate_handler env key limiter clientIp now body st =
     (BadRequest "Invalid response length", snd (rate_limit limiter clientIp now), st) <->
   match responseLength body with
   | None => True
   | Some len => ~ In len ["short"; "medium"; "long"] /\ is_proto_member len = false
   end).
Proof.
  intros Ha Ht Hb Hr Hrr. unfold debate_handler.
  destruct (rate_limit limiter clientIp now) as [adm lim1]. cbn [fst snd] in *. subst adm.
  cbv beta iota zeta. cbn [negb]. rewrite Ht, (trim_nonblank_nonempty t Hb).
  destruct (String.eqb_spec (trim t) "") as [E|_]; [contradiction|]. cbn [orb].
  rewrite Hr.
  destruct ((r =? 0)%Z || (r <? 1)%Z || (r >? 10)%Z) eqn:Er;
    [apply rounds_test_iff in Er; contradiction|].
  destruct (responseLength body) as [len|]; [|tauto].
  destruct (String.eqb len "" || negb (truthy (get RESPONSE_LENGTHS len))) eqn:El.
  - apply length_test_iff in El. tauto.
  - split; [no_such_reply|]. intros H. apply length_test_iff in H. congruence.
Qed.

Lemma debate_length_checked_witness :
  fst (rate_limit [] "10.0.0.1" 0) = true /\
  trim "AI" <> "" /\
  debate_handler (env_list []) (Some "k") [] "10.0.0.1" 0
    {| topic := Some "AI"; rounds := Some 1%Z;
       responseLength := Some "huge"; body_model := None |} initial_state =
  (BadRequest "Invalid response length", snd (rate_limit [] "10.0.0.1" 0), initial_state).
Proof.
  split; [reflexivity|]. split; [discriminate|].
  apply (debate_length_checked (env_list []) (Some "k") [] "10.0.0.1" 0
    {| topic := Some "AI"; rounds := Some 1%Z;
       responseLength := Some "huge"; body_model := None |} initial_state "AI" 1);
    [reflexivity | reflexivity | discriminate | reflexivity | lia |].
  cbn. split; [intuition discriminate | reflexivity].
Defined.

(** An admitted, valid debate request reaching a server without an API key
    (unset or empty) is answered 500 with the configuration message and no
    [details], before any request to the endpoint. *)
Theorem debate_missing_key env key limiter clientIp now body st t r len :
  fst (rate_limit limiter clientIp now) = true ->
  topic body = Some t -> trim t <> "" ->
  rounds body = Some r -> (1 <= r <= 10)%Z ->
  responseLength body = Some len ->
  (In len ["short"; "medium"; "long"] \/ is_proto_member len = true) ->
  (key = None \/ key = Some "") ->
  debate_handler env key limiter clientIp now body st =
    (ServerError "Groq API key not configured. Please set GROQ_API_KEY in .env file." None,
     snd (rate_limit limiter clientIp now), st).
Proof.
  intros Ha Ht Hb Hr Hrr Hl Hlen Hk. unfold debate_handler.
  destruct (rate_limit limiter clientIp now) as [adm lim1]. cbn [fst snd] in *. subst adm.
  cbv beta iota zeta. cbn [negb]. rewrite Ht, (trim_nonblank_nonempty t Hb).
  destruct (String.eqb_spec (trim t) "") as [E|_]; [contradiction|]. cbn [orb].
  rewrite Hr.
  destruct ((r =? 0)%Z || (r <? 1)%Z || (r >? 10)%Z) eqn:Er;
    [apply rounds_test_iff in Er; contradiction|].
  rewrite Hl.
  destruct (String.eqb len "" || negb (truthy (get RESPONSE_LENGTHS len))) eqn:El.
  - apply length_test_iff in El. destruct El as [N P]. destruct Hlen; [contradiction|congruence].
  - destruct Hk as [->| ->]; reflexivity.
Qed.

Lemma debate_missing_key_witness :
  fst (rate_limit [] "10.0.0.1" 0) = true /\
  trim "AI" <> "" /\
  debate_handler (env_list []) None [] "10.0.0.1" 0
    {| topic := Some "AI"; rounds := Some 2%Z;
       responseLength := Some "long"; body_model := None |} initial_state =
  (ServerError "Groq API key not configured. Please set GROQ_API_KEY in .env file." None,
   snd (rate_limit [] "10.0.0.1" 0), initial_state).
Proof.
  split; [reflexivity|]. split; [discriminate|].
  apply (debate_missing_key (env_list []) None [] "10.0.0.1" 0
    {| topic := Some "AI"; rounds := Some 2%Z;
       responseLength := Some "long"; body_model := None |} initial_state "AI" 2 "long");
    [reflexivity | reflexivity | discriminate | reflexivity | lia | reflexivity | | ].
  - left. cbn. tauto.
  - left. reflexivity.
Defined.

(** ** The rounds of a debate *)

Lemma str_app_assoc (a b c : string) : ((a ++ b) ++ c = a ++ (b ++ c))%string.
Proof. induction a as [|x a IH]; cbn; [reflexivity|]. rewrite IH. reflexivity. Qed.

Lemma str_app_nil_r (a : string) : (a ++ "")%string = a.
Proof. induction a as [|x a IH]; cbn; [reflexivity|]. rewrite IH. reflexivity. Qed.

Ltac no_new := exists []; split; [symmetry; apply app_nil_r | constructor].

Lemma attempt_loop_appends env self prompt personality0 length model0 modelId :
  (forall fb tried, appends_with (built_here prompt personality0 length) (self fb tried)) ->
  forall rem att tried,
    appends_with (built_here prompt personality0 length)
      (attempt_loop env self prompt personality0 model0 modelId (max_tokens_for length) rem att tried).
Proof.
  intros Hself rem. induction rem as [|rem IH]; intros att tried st; [no_new|].
  cbn [attempt_loop]. unfold attempt_try, fetch.
  set (req := build_request modelId personality0 prompt (max_tokens_for length)).
  assert (Hreq : built_here prompt personality0 length req) by (exists modelId; reflexivity).
  assert (Hone : exists new, sent (record_request req st) = (sent st ++ new)%list /\
                   Forall (built_here prompt personality0 length) new)
    by (exists [req]; split; [reflexivity|constructor; [exact Hreq|constructor]]).
  assert (Hretry : forall att' tried' st2 ms new,
            sent st2 = (sent st ++ new)%list -> Forall (built_here prompt personality0 length) new ->
            exists new', sent (snd (attempt_loop env self prompt personality0 model0 modelId
                                     (max_tokens_for length) rem att' tried' (delay ms st2)))
                         = (sent st ++ new')%list /\
                         Forall (built_here prompt personality0 length) new').
  { intros att' tried' st2 ms new E F.
    destruct (IH att' tried' (delay ms st2)) as (n2 & E2 & F2).
    exists (new ++ n2)%list. split; [rewrite E2; cbn [sent delay]; rewrite E, app_assoc; reflexivity|].
    apply Forall_app; split; assumption. }
  destruct (env (List.length (sent st))) as [e|s t c].
  - destruct (is_network_error e && negb (Nat.eqb att MAX_RETRIES)); [|exact Hone].
    destruct Hone as (n1 & E1 & F1). exact (Hretry _ _ _ _ n1 E1 F1).
  - destruct (response_ok s); cbn [negb].
    + destruct c as [x|]; [destruct (truthy (JString x))|]; exact Hone.
    + destruct ((s =? 404)%Z || (s =? 429)%Z || (s =? 503)%Z);
        [destruct (has_property FREE_MODELS model0) | ]; cbn [andb];
        [destruct (negb (existsb (String.eqb model0) tried)) | |]; [| exact Hone ..].
      destruct (next_fallback (tried ++ [model0])) as [fb|]; [|exact Hone].
      destruct (Hself fb (tried ++ [model0]) (record_request req st)) as (n1 & E1 & F1).
      destruct (self fb (tried ++ [model0]) (record_request req st)) as [r st2].
      cbn [snd] in E1.
      assert (Hst2 : exists new, sent st2 = (sent st ++ new)%list /\
                       Forall (built_here prompt personality0 length) new).
      { exists (req :: n1). split; [rewrite E1; cbn; rewrite <- app_assoc; reflexivity|].
        constructor; assumption. }
      destruct Hst2 as (n2 & E2 & F2).
      destruct r as [x|e| |]; cbv beta iota; try (exists n2; split; assumption).
      destruct (is_network_error e && negb (Nat.eqb att MAX_RETRIES));
        [exact (Hretry _ _ _ _ n2 E2 F2) | exists n2; split; assumption].
Qed.

Lemma callGroq_appends env fuel prompt personality0 length model0 tried :
  appends_with (built_here prompt personality0 length)
    (callGroq env fuel prompt personality0 length model0 tried).
Proof.
  revert model0 tried. induction fuel as [|fuel IH]; intros model0 tried st; [no_new|].
  rewrite callGroq_S. apply attempt_loop_appends. intros fb tr. apply IH.
Qed.

Lemma callGroq8_settles env prompt personality0 length model0 st :
  fst (callGroq env 8 prompt personality0 length model0 [] st) <> OutOfFuel /\
  fst (callGroq env 8 prompt personality0 length model0 [] st) <> Undefined.
Proof.
  split; [|apply callGroq_not_undefined].
  apply callGroq_fuel. destruct (existsb (String.eqb model0) MODEL_FALLBACK_ORDER); cbn; lia.
Qed.

Lemma built_debate_request topic0 len rest x personality0 r :
  (personality0 = AGENT_PRO \/ personality0 = AGENT_CON) ->
  built_here ("Debate Topic: " ++ topic0 ++ nl ++ nl ++ rest ++ x)%string personality0 len r ->
  debate_request topic0 len r.
Proof.
  intros Hp [modelId ->]. exists modelId, personality0, (rest ++ x)%string. auto.
Qed.

(** Splits the run on a [callGroq] call of the goal into its result and
    the requests it sent. *)
Ltac split_call pers :=
  match goal with
  | |- context [callGroq ?e 8 ?p pers ?l ?m [] ?s] =>
      let E := fresh "E" in let F := fresh "F" in let H := fresh "H" in
      let r := fresh "r" in let st' := fresh "st" in let n := fresh "n" in
      let S1 := fresh "HS" in let S2 := fresh "HS" in
      destruct (callGroq_appends e 8 p pers l m [] s) as (n & E & F);
      destruct (callGroq8_settles e p pers l m s) as [S1 S2];
      destruct (callGroq e 8 p pers l m [] s) as [r st'] eqn:H;
      cbn [fst snd] in E, S1, S2
  end.

Lemma generate_rounds_requests env topic0 rounds0 len model0 fuel :
  forall i ctx rs st, (exists rest, ctx = ("Debate Topic: " ++ topic0 ++ nl ++ nl ++ rest)%string) ->
    exists new,
      sent (snd (generate_rounds env fuel topic0 rounds0 len model0 i ctx rs st)) =
        (sent st ++ new)%list /\ Forall (debate_request topic0 len) new.
Proof.
  induction fuel as [|fuel IH]; intros i ctx rs st [rest ->].
  - cbn [generate_rounds]. destruct (i <=? rounds0)%Z; no_new.
  - cbn [generate_rounds]. destruct (i <=? rounds0)%Z; [|no_new].
    rewrite ?str_app_assoc.
    split_call AGENT_PRO.
    assert (Fp : Forall (debate_request topic0 len) n)
      by (eapply Forall_impl; [|exact F]; intros x; apply built_debate_request; auto).
    destruct r as [s1|e1| |]; cbv beta iota; try (exists n; split; assumption).
    all: rewrite ?str_app_assoc.
    all: split_call AGENT_CON.
    all: assert (Fc : Forall (debate_request topic0 len) n0)
           by (eapply Forall_impl; [|exact F0]; intros x; apply built_debate_request; auto).
    all: destruct r as [s2|e2| |]; cbv beta iota;
      try (exists (n ++ n0)%list; split;
           [cbn [snd]; rewrite E0, E, app_assoc; reflexivity | apply Forall_app; split; assumption]).
    all: rewrite ?str_app_assoc.
    all: match goal with
         | |- context [generate_rounds ?e ?fu ?t ?r ?l ?m ?i' ?c ?rs' ?s] =>
             destruct (IH i' c rs' s ltac:(eexists; reflexivity)) as (n3 & E3 & F3)
         end.
    all: exists (n ++ n0 ++ n3)%list; split;
           [rewrite E3, E0, E, !app_assoc; reflexivity
           | apply Forall_app; split; [|apply Forall_app; split]; assumption].
Qed.

Lemma generate_rounds_outcome env topic0 rounds0 len model0 fuel :
  forall i ctx rs st,
    (1 <= i)%Z -> (i <= rounds0 + 1)%Z -> (Z.to_nat (rounds0 - i + 1) <= fuel)%nat ->
    map round rs = map Z.of_nat (seq 1 (Z.to_nat (i - 1))) ->
    Forall round_strings rs ->
    match fst (generate_rounds env fuel topic0 rounds0 len model0 i ctx rs st) with
    | RoundsDone rs' =>
        map round rs' = map Z.of_nat (seq 1 (Z.to_nat rounds0)) /\ Forall round_strings rs'
    | RoundsFailed _ => True
    | RoundsOutOfFuel => False
    end.
Proof.
  induction fuel as [|fuel IH]; intros i ctx rs st H1 H2 Hf Hr Hs.
  - cbn [generate_rounds]. destruct (Z.leb_spec i rounds0); [lia|].
    cbn [fst]. replace (Z.to_nat rounds0) with (Z.to_nat (i - 1)) by lia. auto.
  - cbn [generate_rounds]. destruct (Z.leb_spec i rounds0) as [Hle|Hgt].
    + split_call AGENT_PRO.
      destruct r as [s1|e1| |]; cbv beta iota; [|exact I|contradiction|contradiction].
      split_call AGENT_CON.
      destruct r as [s2|e2| |]; cbv beta iota; [|exact I|contradiction|contradiction].
      apply IH; [lia | lia | lia | |].
      * rewrite map_app, Hr. cbn [map round].
        replace (Z.to_nat (i + 1 - 1)) with (S (Z.to_nat (i - 1))) by lia.
        rewrite seq_S, map_app. cbn [map]. f_equal. f_equal. f_equal. lia.
      * apply Forall_app. split; [exact Hs|]. constructor; [|constructor].
        exists s1, s2. split; reflexivity.
    + cbn [fst]. replace (Z.to_nat rounds0) with (Z.to_nat (i - 1)) by lia. auto.
Qed.

(** An admitted debate request that passes validation on a server with an
    API key is answered in one of two ways: the 200 debate, whose rounds
    are numbered 1 to [rounds] with a string on both sides and whose
    [totalRounds] is [rounds]; or the 500 ['Failed to generate debate']
    with the thrown error's message as [details].  No round holds
    [undefined], and the generation always ends. *)
Theorem debate_outcome env key limiter clientIp now body st t r len k :
  fst (rate_limit limiter clientIp now) = true ->
  topic body = Some t -> trim t <> "" ->
  rounds body = Some r -> (1 <= r <= 10)%Z ->
  responseLength body = Some len ->
  (In len ["short"; "medium"; "long"] \/ is_proto_member len = true) ->
  key = Some k -> k <> "" ->
  snd (fst (debate_handler env key limiter clientIp now body st)) =
    snd (rate_limit limiter clientIp now) /\
  ((exists rs,
      fst (fst (debate_handler env key limiter clientIp now body st)) =
        DebateResult t rs r len (body_model body) /\
      map round rs = map Z.of_nat (seq 1 (Z.to_nat r)) /\
      Forall round_strings rs) \/
   (exists msg,
      fst (fst (debate_handler env key limiter clientIp now body st)) =
        ServerError "Failed to generate debate" (Some msg))).
Proof.
  intros Ha Ht Hb Hr Hrr Hl Hlen Hk Hk'. unfold debate_handler.
  destruct (rate_limit limiter clientIp now) as [adm lim1]. cbn [fst snd] in *. subst adm.
  cbv beta iota zeta. cbn [negb]. rewrite Ht, (trim_nonblank_nonempty t Hb).
  destruct (String.eqb_spec (trim t) "") as [E|_]; [contradiction|]. cbn [orb].
  rewrite Hr.
  destruct ((r =? 0)%Z || (r <? 1)%Z || (r >? 10)%Z) eqn:Er;
    [apply rounds_test_iff in Er; contradiction|].
  rewrite Hl.
  destruct (String.eqb len "" || negb (truthy (get RESPONSE_LENGTHS len))) eqn:El.
  { apply length_test_iff in El. destruct El as [N P]. destruct Hlen; [contradiction|congruence]. }
  subst key. destruct (String.eqb_spec k "") as [E|_]; [contradiction|].
  pose proof (generate_rounds_outcome env t r len
                (match body_model body with Some m => m | None => "llama33" end)
                (S (Z.to_nat r)) 1 ("Debate Topic: " ++ t ++ nl ++ nl)%string [] st) as G.
  destruct (generate_rounds env (S (Z.to_nat r)) t r len _ 1 _ [] st) as [[rs|e|] st'];
    cbn [fst snd] in *.
  - destruct G as [G1 G2]; [lia | lia | lia | reflexivity | constructor |].
    split; [reflexivity|]. left. exists rs. auto.
  - split; [reflexivity|]. right. eexists. reflexivity.
  - exfalso. apply G; [lia | lia | lia | reflexivity | constructor].
Qed.

Lemma debate_outcome_witness :
  let env := env_list (repeat (Response 200 "" (Some "ok")) 2) in
  let body := {| topic := Some "AI"; rounds := Some 1%Z;
                 responseLength := Some "short"; body_model := None |} in
  fst (rate_limit [] "10.0.0.1" 0) = true /\ trim "AI" <> "" /\
  (snd (fst (debate_handler env (Some "k") [] "10.0.0.1" 0 body initial_state)) =
     snd (rate_limit [] "10.0.0.1" 0) /\
   ((exists rs,
       fst (fst (debate_handler env (Some "k") [] "10.0.0.1" 0 body initial_state)) =
         DebateResult "AI" rs 1 "short" None /\
       map round rs = map Z.of_nat (seq 1 (Z.to_nat 1)) /\
       Forall round_strings rs) \/
    (exists msg,
       fst (fst (debate_handler env (Some "k") [] "10.0.0.1" 0 body initial_state)) =
         ServerError "Failed to generate debate" (Some msg)))).
Proof.
  intros env body. split; [reflexivity|]. split; [discriminate|].
  apply (debate_outcome env (Some "k") [] "10.0.0.1" 0 body initial_state "AI" 1 "short" "k");
    [reflexivity | reflexivity | discriminate | reflexivity | lia | reflexivity
    | left; cbn; tauto | reflexivity | discriminate].
Defined.

(** Every request a debate sends to the endpoint, whatever the outcome,
    carries the pro or the con persona's style as its system message, a
    user prompt that begins with [Debate Topic: <topic>] and two line
    breaks, and the token budget of the requested length tier; the
    requests are appended to those sent before. *)
Theorem debate_requests env key limiter clientIp now body st t len :
  topic body = Some t -> responseLength body = Some len ->
  exists new,
    sent (snd (debate_handler env key limiter clientIp now body st)) = (sent st ++ new)%list /\
    Forall (debate_request t len) new.
Proof.
  intros Ht Hl. unfold debate_handler.
  destruct (rate_limit limiter clientIp now) as [adm lim1].
  destruct adm; cbn [negb]; cbv beta iota zeta; [|no_new].
  rewrite Ht. destruct (String.eqb t "" || String.eqb (trim t) ""); [no_new|].
  destruct (rounds body) as [r|]; [|no_new].
  destruct ((r =? 0)%Z || (r <? 1)%Z || (r >? 10)%Z); [no_new|].
  rewrite Hl. destruct (String.eqb len "" || negb (truthy (get RESPONSE_LENGTHS len))); [no_new|].
  destruct (match key with Some k => String.eqb k "" | None => true end); [no_new|].
  destruct (generate_rounds_requests env t r len
              (match body_model body with Some m => m | None => "llama33" end)
              (S (Z.to_nat r)) 1 ("Debate Topic: " ++ t ++ nl ++ nl)%string [] st)
    as (new & E & F); [exists ""; rewrite str_app_nil_r; reflexivity|].
  destruct (generate_rounds env (S (Z.to_nat r)) t r len _ 1 _ [] st) as [[rs|e|] st'];
    cbn [snd] in *; exists new; split; assumption.
Qed.

Lemma debate_requests_witness :
  let body := {| topic := Some "AI"; rounds := Some 1%Z;
                 responseLength := Some "short"; body_model := None |} in
  topic body = Some "AI" /\ responseLength body = Some "short" /\
  exists new,
    sent (snd (debate_handler (env_list []) (Some "k") [] "10.0.0.1" 0 body initial_state)) =
      (sent initial_state ++ new)%list /\
    Forall (debate_request "AI" "short") new.
Proof.
  intros body. split; [reflexivity|]. split; [reflexivity|].
  apply (debate_requests (env_list []) (Some "k") [] "10.0.0.1" 0 body initial_state "AI" "short");
    reflexivity.
Defined.

(** ** The back-off delays of [callGroq] *)

Lemma attempt_loop_waits env self prompt personality0 model0 modelId maxTokens :
  (forall fb tr st, exists w, waited (snd (self fb tr st)) = (waited st ++ w)%list /\
                              Forall (fun ms => ms = 1000%Z \/ ms = 2000%Z \/ ms = 4000%Z) w) ->
  forall rem att tried st, (rem + att = 4)%nat ->
    exists w, waited (snd (attempt_loop env self prompt personality0 model0 modelId maxTokens
                             rem att tried st)) = (waited st ++ w)%list /\ Forall (fun ms => ms = 1000%Z \/ ms = 2000%Z \/ ms = 4000%Z) w.
Proof.
  intros Hself rem. induction rem as [|rem IH]; intros att tried st Hs; [no_new|].
  cbn [attempt_loop]. unfold attempt_try, fetch.
  set (req := build_request modelId personality0 prompt maxTokens).
  assert (Hone : forall st', waited st' = waited st ->
            exists w, waited st' = (waited st ++ w)%list /\ Forall (fun ms => ms = 1000%Z \/ ms = 2000%Z \/ ms = 4000%Z) w)
    by (intros st' E; exists []; rewrite E, app_nil_r; split; [reflexivity|constructor]).
  assert (Hretry : forall e tried' st2 w,
            is_network_error e && negb (Nat.eqb att MAX_RETRIES) = true ->
            waited st2 = (waited st ++ w)%list -> Forall (fun ms => ms = 1000%Z \/ ms = 2000%Z \/ ms = 4000%Z) w ->
            exists w', waited (snd (attempt_loop env self prompt personality0 model0 modelId
                          maxTokens rem (S att) tried'
                          (delay (INITIAL_RETRY_DELAY_MS * 2 ^ Z.of_nat att) st2)))
                       = (waited st ++ w')%list /\ Forall (fun ms => ms = 1000%Z \/ ms = 2000%Z \/ ms = 4000%Z) w').
  { intros e tried' st2 w Hn E F.
    apply andb_prop in Hn. destruct Hn as [_ Hn].
    apply negb_true_iff, Nat.eqb_neq in Hn. unfold MAX_RETRIES in Hn.
    destruct (IH (S att) tried' (delay (INITIAL_RETRY_DELAY_MS * 2 ^ Z.of_nat att) st2))
      as (w2 & E2 & F2); [lia|].
    exists (w ++ [(INITIAL_RETRY_DELAY_MS * 2 ^ Z.of_nat att)%Z] ++ w2)%list. split.
    - rewrite E2. cbn [waited delay]. rewrite E, !app_assoc. reflexivity.
    - apply Forall_app. split; [exact F|]. constructor; [|exact F2].
      unfold INITIAL_RETRY_DELAY_MS.
      destruct att as [|[|[|att]]]; [left; reflexivity | right; left; reflexivity
                                    | right; right; reflexivity | lia]. }
  destruct (env (List.length (sent st))) as [e|s t c].
  - destruct (is_network_error e && negb (Nat.eqb att MAX_RETRIES)) eqn:Hn;
      [|apply Hone; reflexivity].
    exact (Hretry e tried (record_request req st) [] Hn (eq_sym (app_nil_r _)) (Forall_nil _)).
  - destruct (response_ok s); cbn [negb].
    + destruct c as [x|]; [destruct (truthy (JString x))|]; apply Hone; reflexivity.
    + destruct ((s =? 404)%Z || (s =? 429)%Z || (s =? 503)%Z);
        [destruct (has_property FREE_MODELS model0) | ]; cbn [andb];
        [destruct (negb (existsb (String.eqb model0) tried)) | |];
        [| apply Hone; reflexivity ..].
      destruct (next_fallback (tried ++ [model0])) as [fb|]; [|apply Hone; reflexivity].
      destruct (Hself fb (tried ++ [model0]) (record_request req st)) as (w1 & E1 & F1).
      destruct (self fb (tried ++ [model0]) (record_request req st)) as [r st2].
      cbn [snd waited record_request] in E1.
      destruct r as [x|e| |]; cbv beta iota; try (exists w1; split; assumption).
      destruct (is_network_error e && negb (Nat.eqb att MAX_RETRIES)) eqn:Hn;
        [exact (Hretry e _ st2 w1 Hn E1 F1) | exists w1; split; assumption].
Qed.

(** Every delay a call waits before a retry is 1000, 2000 or 4000 ms
    ([INITIAL_RETRY_DELAY_MS * 2^attempt] for attempts 0 to 2), across all
    the frames of the fallback chain; a call only adds to the delays waited
    before it. *)
Theorem callGroq_backoff_delays env fuel prompt personality0 length model0 tried st :
  exists w,
    waited (snd (callGroq env fuel prompt personality0 length model0 tried st)) =
      (waited st ++ w)%list /\
    Forall (fun ms => ms = 1000%Z \/ ms = 2000%Z \/ ms = 4000%Z) w.
Proof.
  revert model0 tried st. induction fuel as [|fuel IH]; intros model0 tried st; [no_new|].
  rewrite callGroq_S. apply attempt_loop_waits; [|reflexivity]. intros fb tr st'. apply IH.
Qed.
